(** * fingertail: behavioural feature extraction and risk scoring

    A shallow embedding of [ml_backend.py] (BehavioralBiometricsML) and of the
    two analysis endpoints of [api_server.py] (risk_assessment, validate_data).

    Modelling conventions.
    - A request payload is a JSON value ([pyval]); Python's dynamic failures
      (KeyError, TypeError, ...) are results of type [result].
    - A number is a [float]: an exact rational or one of the IEEE specials
      (+inf, -inf, NaN).  Rounding and overflow of binary64 are not modelled:
      arithmetic on finite values is exact, and a square root is exact on
      squares of rationals.
    - numpy reductions are modelled on flat lists of scalars; a leaf that is
      not a number or a boolean makes them raise.
    - Logging is an explicit list of records returned next to the value. *)

From Stdlib Require Import ZArith QArith Qround String Ascii List Bool Lia.
From Stdlib Require Qcanon Qabs DecimalString.
Import ListNotations.

Set Warnings "-register-all".

(* ================================================================== *)
(** ** Numbers *)

Module Float.

Inductive float : Type :=
| Fin (q : Q)
| PInf
| NInf
| NaN.

(** Finite values are kept in lowest terms, so equal numbers are equal terms. *)
Definition fin (q : Q) : float := Fin (Qred q).

Definition of_Z (z : Z) : float := Fin (inject_Z z).
Definition of_nat (n : nat) : float := of_Z (Z.of_nat n).

Definition zero : float := of_Z 0.
Definition one : float := of_Z 1.

Definition sign (q : Q) : comparison := (Qnum q ?= 0)%Z.

Definition fopp (x : float) : float :=
  match x with
  | Fin q => fin (- q)
  | PInf => NInf
  | NInf => PInf
  | NaN => NaN
  end.

Definition fadd (x y : float) : float :=
  match x, y with
  | NaN, _ | _, NaN => NaN
  | PInf, NInf | NInf, PInf => NaN
  | PInf, _ | _, PInf => PInf
  | NInf, _ | _, NInf => NInf
  | Fin a, Fin b => fin (a + b)
  end.

Definition fsub (x y : float) : float :=
  match x, y with
  | NaN, _ | _, NaN => NaN
  | PInf, PInf | NInf, NInf => NaN
  | PInf, _ | _, NInf => PInf
  | NInf, _ | _, PInf => NInf
  | Fin a, Fin b => fin (a - b)
  end.

Definition inf_times (pos : bool) (a : Q) : float :=
  match sign a with
  | Gt => if pos then PInf else NInf
  | Lt => if pos then NInf else PInf
  | Eq => NaN
  end.

Definition fmul (x y : float) : float :=
  match x, y with
  | NaN, _ | _, NaN => NaN
  | Fin a, Fin b => fin (a * b)
  | Fin a, PInf | PInf, Fin a => inf_times true a
  | Fin a, NInf | NInf, Fin a => inf_times false a
  | PInf, PInf | NInf, NInf => PInf
  | PInf, NInf | NInf, PInf => NInf
  end.

(** IEEE division; a finite value over zero is an infinity of its sign. *)
Definition fdiv (x y : float) : float :=
  match x, y with
  | NaN, _ | _, NaN => NaN
  | Fin a, Fin b =>
      match sign b with
      | Eq => inf_times true a
      | _ => fin (a / b)
      end
  | Fin _, (PInf | NInf) => zero
  | PInf, Fin b => match sign b with Lt => NInf | _ => PInf end
  | NInf, Fin b => match sign b with Lt => PInf | _ => NInf end
  | (PInf | NInf), (PInf | NInf) => NaN
  end.

(** Square root of a non-negative rational: exact when numerator and
    denominator are squares, else truncated to 2^-64. *)
Definition Qsqrt (q : Q) : Q :=
  let r := Qred q in
  let n := Qnum r in
  let d := Zpos (Qden r) in
  let sn := Z.sqrt n in
  let sd := Z.sqrt d in
  if ((sn * sn =? n) && (sd * sd =? d))%Z
  then Qred (Qmake sn (Z.to_pos sd))
  else
    let k := (2 ^ 64)%Z in
    Qred (Qmake (Z.sqrt (n * d * k * k)) (Z.to_pos (d * k))).

Definition fsqrt (x : float) : float :=
  match x with
  | Fin q => match sign q with Lt => NaN | _ => Fin (Qsqrt q) end
  | PInf => PInf
  | NInf => NaN
  | NaN => NaN
  end.

(** Comparisons; every comparison with NaN is false. *)
Definition flt (x y : float) : bool :=
  match x, y with
  | NaN, _ | _, NaN => false
  | Fin a, Fin b => match Qcompare a b with Lt => true | _ => false end
  | NInf, (Fin _ | PInf) => true
  | Fin _, PInf => true
  | _, _ => false
  end.

Definition fgt (x y : float) : bool := flt y x.

Definition feq (x y : float) : bool :=
  match x, y with
  | Fin a, Fin b => Qeq_bool a b
  | PInf, PInf | NInf, NInf => true
  | _, _ => false
  end.

Definition is_nan (x : float) : bool :=
  match x with NaN => true | _ => false end.

Definition is_finite (x : float) : bool :=
  match x with Fin _ => true | _ => false end.

(** The order numpy sorts by: NaN after everything else. *)
Definition sort_le (x y : float) : bool :=
  match x, y with
  | _, NaN => true
  | NaN, _ => false
  | _, _ => negb (flt y x)
  end.

End Float.
Export Float.

(* ================================================================== *)
(** ** Python values, exceptions and the operators the code uses *)

Module Py.

(** A decoded JSON document.  An object is an association list; lookup takes
    the first binding of a key. *)
Inductive pyval : Type :=
| VNone
| VBool (b : bool)
| VNum (x : float)
| VStr (s : string)
| VList (l : list pyval)
| VDict (kv : list (string * pyval)).

Inductive key : Type :=
| KStr (s : string)
| KInt (i : nat).

Inductive exn : Type :=
| KeyError (k : key)
| IndexError
| TypeError
| ValueError
| AttributeError.

Inductive result (A : Type) : Type :=
| Ok (a : A)
| Raise (e : exn).

Arguments Ok {A} a.
Arguments Raise {A} e.

Definition bind {A B : Type} (c : result A) (k : A -> result B) : result B :=
  match c with
  | Ok a => k a
  | Raise e => Raise e
  end.

Declare Scope py_scope.
Delimit Scope py_scope with py.
Notation "x <- c ;; k" := (bind c (fun x => k))
  (at level 61, c at next level, right associativity) : py_scope.
Notation "' pat <- c ;; k" := (bind c (fun x => match x with pat => k end))
  (at level 61, pat pattern, c at next level, right associativity) : py_scope.
Open Scope py_scope.

(** [[f(x) for x in l]], stopping at the first exception. *)
Fixpoint mapM {A B : Type} (f : A -> result B) (l : list A) : result (list B) :=
  match l with
  | [] => Ok []
  | a :: l' => b <- f a ;; bs <- mapM f l' ;; Ok (b :: bs)
  end.

(** [for i in xs: s = body(i, s)], stopping at the first exception. *)
Fixpoint for_each {A S : Type} (xs : list A) (body : A -> S -> result S) (s : S)
  : result S :=
  match xs with
  | [] => Ok s
  | i :: xs' => s' <- body i s ;; for_each xs' body s'
  end.

Definition zero : pyval := VNum Float.zero.

Fixpoint lookup (k : string) (kv : list (string * pyval)) : option pyval :=
  match kv with
  | [] => None
  | (k', v) :: kv' => if String.eqb k k' then Some v else lookup k kv'
  end.

Fixpoint is_substring (p s : string) : bool :=
  String.prefix p s
  || match s with
     | EmptyString => false
     | String _ s' => is_substring p s'
     end.

(** [v == 'lit'] *)
Definition py_eq_str (v : pyval) (lit : string) : bool :=
  match v with
  | VStr s => String.eqb s lit
  | _ => false
  end.

(** [len(v)] *)
Definition py_len (v : pyval) : result nat :=
  match v with
  | VStr s => Ok (String.length s)
  | VList l => Ok (List.length l)
  | VDict kv => Ok (List.length kv)
  | _ => Raise TypeError
  end.

(** ['k' in v] *)
Definition py_in (k : string) (v : pyval) : result bool :=
  match v with
  | VDict kv => Ok (match lookup k kv with Some _ => true | None => false end)
  | VList l => Ok (existsb (fun e => py_eq_str e k) l)
  | VStr s => Ok (is_substring k s)
  | _ => Raise TypeError
  end.

(** [v['k']] *)
Definition py_getitem (v : pyval) (k : string) : result pyval :=
  match v with
  | VDict kv =>
      match lookup k kv with
      | Some x => Ok x
      | None => Raise (KeyError (KStr k))
      end
  | _ => Raise TypeError
  end.

(** [v[i]] for a non-negative index *)
Definition py_index (v : pyval) (i : nat) : result pyval :=
  match v with
  | VList l =>
      match nth_error l i with
      | Some x => Ok x
      | None => Raise IndexError
      end
  | VStr s =>
      match String.get i s with
      | Some c => Ok (VStr (String c EmptyString))
      | None => Raise IndexError
      end
  | VDict _ => Raise (KeyError (KInt i))
  | _ => Raise TypeError
  end.

(** [v.get('k', default)] *)
Definition py_get (v : pyval) (k : string) (default : pyval) : result pyval :=
  match v with
  | VDict kv =>
      match lookup k kv with
      | Some x => Ok x
      | None => Ok default
      end
  | _ => Raise AttributeError
  end.

(** [for x in v]: the sequence a loop or comprehension runs over. *)
Definition py_iter (v : pyval) : result (list pyval) :=
  match v with
  | VList l => Ok l
  | VStr s => Ok (map (fun c => VStr (String c EmptyString)) (list_ascii_of_string s))
  | VDict kv => Ok (map (fun p => VStr (fst p)) kv)
  | _ => Raise TypeError
  end.

(** Truth value of [v], as in [if not v]. *)
Definition py_truth (v : pyval) : bool :=
  match v with
  | VNone => false
  | VBool b => b
  | VNum x => negb (feq x Float.zero)
  | VStr s => negb (String.eqb s EmptyString)
  | VList l => match l with [] => false | _ => true end
  | VDict kv => match kv with [] => false | _ => true end
  end.

(** [isinstance(v, list)] *)
Definition is_list (v : pyval) : bool :=
  match v with VList _ => true | _ => false end.

(** [field in v and len(v[field]) > k], with Python's short circuit. *)
Definition has_more_than (v : pyval) (field : string) (k : nat) : result bool :=
  present <- py_in field v ;;
  if present then
    x <- py_getitem v field ;;
    n <- py_len x ;;
    Ok (k <? n)%nat
  else Ok false.

(** The number a scalar stands for in arithmetic; a bool is an int. *)
Definition as_number (v : pyval) : option float :=
  match v with
  | VNum x => Some x
  | VBool b => Some (if b then Float.one else Float.zero)
  | _ => None
  end.

Definition number (v : pyval) : result float :=
  match as_number v with
  | Some x => Ok x
  | None => Raise TypeError
  end.

(** [a - b] *)
Definition py_sub (a b : pyval) : result float :=
  x <- number a ;; y <- number b ;; Ok (fsub x y).

(** [x ** 2] on a number *)
Definition py_sq (x : float) : float := fmul x x.

(** [sum(l)] of numbers, from the int 0 *)
Definition py_sum (l : list float) : float := fold_left fadd l Float.zero.

(** [max(a, b, c)]: the first argument unless a later one compares greater. *)
Definition py_max3 (a b c : float) : float :=
  let r := if fgt b a then b else a in
  if fgt c r then c else r.

End Py.
Export Py.

(* ================================================================== *)
(** ** The numpy functions the extractor calls *)

Module Np.

Definition sum (l : list float) : float := fold_left fadd l Float.zero.

(** [np.mean]; the mean of an empty array is NaN. *)
Definition mean (l : list float) : float :=
  fdiv (sum l) (Float.of_nat (length l)).

(** [np.var]: population variance, the mean of squared deviations. *)
Definition var (l : list float) : float :=
  let m := mean l in
  mean (map (fun x => py_sq (fsub x m)) l).

(** [np.std]: population standard deviation. *)
Definition std (l : list float) : float := fsqrt (var l).

(** [np.minimum] and [np.maximum] propagate NaN. *)
Definition minimum (x y : float) : float :=
  if is_nan x || is_nan y then NaN else if flt y x then y else x.

Definition maximum (x y : float) : float :=
  if is_nan x || is_nan y then NaN else if flt x y then y else x.

(** [np.min] and [np.max]; an empty array has no minimum. *)
Definition amin (l : list float) : result float :=
  match l with
  | [] => Raise ValueError
  | x :: l' => Ok (fold_left minimum l' x)
  end.

Definition amax (l : list float) : result float :=
  match l with
  | [] => Raise ValueError
  | x :: l' => Ok (fold_left maximum l' x)
  end.

Fixpoint insert_sorted (x : float) (l : list float) : list float :=
  match l with
  | [] => [x]
  | y :: l' => if sort_le x y then x :: l else y :: insert_sorted x l'
  end.

Definition sort (l : list float) : list float :=
  fold_right insert_sorted [] l.

Definition lerp (a b : float) (t : Q) : float :=
  let d := fsub b a in
  if Qle_bool (1 # 2) t
  then fsub b (fmul d (fin (1 - t)))
  else fadd a (fmul d (fin t)).

(** [np.percentile(l, p)], linear interpolation between order statistics. *)
Definition percentile (l : list float) (p : Q) : float :=
  match l with
  | [] => NaN
  | _ =>
      if existsb is_nan l then NaN
      else
        let s := sort l in
        let n := length l in
        let vi := (inject_Z (Z.of_nat (n - 1)) * (p / 100))%Q in
        let lo := Z.to_nat (Qfloor vi) in
        let hi := Nat.min (lo + 1) (n - 1) in
        let g := (vi - inject_Z (Qfloor vi))%Q in
        lerp (nth lo s NaN) (nth hi s NaN) g
  end.

(** The numeric array numpy builds from a list of scalars. *)
Definition asarray (l : list pyval) : result (list float) := mapM number l.

Fixpoint adjacent {A B : Type} (f : A -> A -> B) (l : list A) : list B :=
  match l with
  | a :: (b :: _) as t => f a b :: adjacent f t
  | _ => []
  end.

Definition is_bool (v : pyval) : bool :=
  match v with VBool _ => true | _ => false end.

(** [np.diff]: first differences [a[i+1] - a[i]]; on a boolean array the
    difference is "not equal". *)
Definition diff (l : list pyval) : result (list float) :=
  xs <- asarray l ;;
  if forallb is_bool l
  then Ok (adjacent (fun a b => if feq a b then Float.zero else Float.one) xs)
  else Ok (adjacent (fun a b => fsub b a) xs).

Definition zeros (n : nat) : list float := repeat Float.zero n.

(** [np.nan_to_num(a, nan=0.0, posinf=0.0, neginf=0.0)] *)
Definition nan_to_num (l : list float) : list float :=
  map (fun x => if is_finite x then x else Float.zero) l.

Section Conversion.

(** [float(s)] on a string: the number it spells, if it spells one. *)
Variable parse_float : string -> option float.

(** One element of [np.array(features, dtype=np.float64)], where [features]
    also holds scalars. *)
Definition to_float64 (v : pyval) : result float :=
  match v with
  | VNum x => Ok x
  | VBool b => Ok (if b then Float.one else Float.zero)
  | VNone => Ok NaN
  | VStr s =>
      match parse_float s with
      | Some x => Ok x
      | None => Raise ValueError
      end
  | VList _ => Raise ValueError
  | VDict _ => Raise TypeError
  end.

Definition array_float64 (l : list pyval) : result (list float) :=
  mapM to_float64 l.

End Conversion.

End Np.

(* ================================================================== *)
(** ** ml_backend.py: BehavioralBiometricsML *)

Module MlBackend.

Open Scope string_scope.
Open Scope list_scope.

Inductive log_record : Type :=
| LogError (msg : string) (e : exn).

Definition zeros (n : nat) : list pyval := repeat Py.zero n.

(** [[np.mean(l), np.std(l), np.min(l), np.max(l)]] *)
Definition stats4 (l : list float) : result (list pyval) :=
  mn <- Np.amin l ;;
  mx <- Np.amax l ;;
  Ok [VNum (Np.mean l); VNum (Np.std l); VNum mn; VNum mx].

(** The same four statistics of a list of raw JSON leaves. *)
Definition stats4_of (l : list pyval) : result (list pyval) :=
  xs <- Np.asarray l ;; stats4 xs.

(** The six dwell statistics: the four above and the quartiles. *)
Definition stats6 (l : list float) : result (list pyval) :=
  s <- stats4 l ;;
  Ok (s ++ [VNum (Np.percentile l 25); VNum (Np.percentile l 75)]).

(** The loop
    [for i in range(len(key_events) - 1):
       if key_events[i]['event'] == first and key_events[i+1]['event'] == second:
         times.append(key_events[i+1]['epoch'] - key_events[i]['epoch'])]
    which the extractor runs for dwell times and again for flight times. *)
Definition adjacent_times (key_events : pyval) (n : nat) (first second : string)
  : result (list float) :=
  for_each (seq 0 (n - 1))
    (fun i times =>
       ei <- py_index key_events i ;;
       evi <- py_getitem ei "event" ;;
       if py_eq_str evi first then
         ej <- py_index key_events (i + 1) ;;
         evj <- py_getitem ej "event" ;;
         if py_eq_str evj second then
           tj <- py_getitem ej "epoch" ;;
           ti <- py_getitem ei "epoch" ;;
           t <- py_sub tj ti ;;
           Ok (times ++ [t])
         else Ok times
       else Ok times)
    [].

Definition dwell_times (key_events : pyval) (n : nat) : result (list float) :=
  adjacent_times key_events n "pressed" "released".

Definition flight_times (key_events : pyval) (n : nat) : result (list float) :=
  adjacent_times key_events n "released" "pressed".

(** [[event['epoch'] for event in key_events if event['event'] == 'pressed']] *)
Definition key_press_times (key_events : pyval) : result (list pyval) :=
  events <- py_iter key_events ;;
  for_each events
    (fun event times =>
       ev <- py_getitem event "event" ;;
       if py_eq_str ev "pressed" then
         t <- py_getitem event "epoch" ;;
         Ok (times ++ [t])
       else Ok times)
    [].

(** Lines 188-242: what the key-press section appends to [features]. *)
Definition key_features (behavioral_data : pyval) : result (list pyval) :=
  present <- py_in "keyEvents" behavioral_data ;;
  if present then
    key_events <- py_getitem behavioral_data "keyEvents" ;;
    n <- py_len key_events ;;
    if (1 <? n)%nat then
      dwell <- dwell_times key_events n ;;
      f1 <- match dwell with
            | [] => Ok (zeros 6)
            | _ => stats6 dwell
            end ;;
      flight <- flight_times key_events n ;;
      f2 <- match flight with
            | [] => Ok (zeros 4)
            | _ => stats4 flight
            end ;;
      presses <- key_press_times key_events ;;
      f3 <- (if (1 <? length presses)%nat then
               intervals <- Np.diff presses ;;
               stats4 intervals
             else Ok (zeros 4)) ;;
      Ok (f1 ++ f2 ++ f3)
    else Ok (zeros 18)
  else Ok (zeros 18).

(** The touch loop: distances of adjacent touch -> release pairs. *)
Definition movements (touch_events : pyval) (n : nat) : result (list float) :=
  for_each (seq 0 (n - 1))
    (fun i moves =>
       ei <- py_index touch_events i ;;
       evi <- py_getitem ei "event" ;;
       if py_eq_str evi "touch" then
         ej <- py_index touch_events (i + 1) ;;
         evj <- py_getitem ej "event" ;;
         if py_eq_str evj "release" then
           cj <- py_getitem ej "coordinates" ;;
           xj <- py_getitem cj "x" ;;
           ci <- py_getitem ei "coordinates" ;;
           xi <- py_getitem ci "x" ;;
           dx <- py_sub xj xi ;;
           yj <- py_getitem cj "y" ;;
           yi <- py_getitem ci "y" ;;
           dy <- py_sub yj yi ;;
           Ok (moves ++ [fsqrt (fadd (py_sq dx) (py_sq dy))])
         else Ok moves
       else Ok moves)
    [].

(** Lines 244-269: what the touch section appends. *)
Definition touch_features (behavioral_data : pyval) : result (list pyval) :=
  present <- py_in "touchEvents" behavioral_data ;;
  if present then
    touch_events <- py_getitem behavioral_data "touchEvents" ;;
    n <- py_len touch_events ;;
    if (1 <? n)%nat then
      moves <- movements touch_events n ;;
      match moves with
      | [] => Ok (zeros 4)
      | _ => stats4 moves
      end
    else Ok (zeros 4)
  else Ok (zeros 4).

(** [[s[sensor][axis] for s in sensor_data]] *)
Definition axis_values (samples : list pyval) (sensor axis : string)
  : result (list pyval) :=
  mapM (fun s => v <- py_getitem s sensor ;; py_getitem v axis) samples.

(** The twelve statistics of one sensor: the three axis lists are built
    first, then mean, std, min and max of x, of y and of z. *)
Definition sensor_stats (samples : list pyval) (sensor : string)
  : result (list pyval) :=
  xs <- axis_values samples sensor "x" ;;
  ys <- axis_values samples sensor "y" ;;
  zs <- axis_values samples sensor "z" ;;
  sx <- stats4_of xs ;;
  sy <- stats4_of ys ;;
  sz <- stats4_of zs ;;
  Ok (sx ++ sy ++ sz).

(** An optional sensor: present if sample zero has the field. *)
Definition optional_sensor_stats (sensor_data : pyval) (samples : list pyval)
  (sensor : string) : result (list pyval) :=
  s0 <- py_index sensor_data 0 ;;
  present <- py_in sensor s0 ;;
  if present then sensor_stats samples sensor else Ok (zeros 12).

(** Lines 271-316: what the sensor section appends. *)
Definition sensor_features (behavioral_data : pyval) : result (list pyval) :=
  present <- py_in "sensorData" behavioral_data ;;
  if present then
    sensor_data <- py_getitem behavioral_data "sensorData" ;;
    n <- py_len sensor_data ;;
    if (1 <? n)%nat then
      samples <- py_iter sensor_data ;;
      acc <- sensor_stats samples "accelerometer" ;;
      gyro <- optional_sensor_stats sensor_data samples "gyroscope" ;;
      mag <- optional_sensor_stats sensor_data samples "magnetometer" ;;
      Ok (acc ++ gyro ++ mag)
    else Ok (zeros 36)
  else Ok (zeros 36).

(** Lines 318-323: the three session scalars. *)
Definition session_features (behavioral_data : pyval) : result (list pyval) :=
  d <- py_get behavioral_data "sessionDuration" Py.zero ;;
  t <- py_get behavioral_data "typingSpeed" Py.zero ;;
  f <- py_get behavioral_data "falseEnters" Py.zero ;;
  Ok [d; t; f].

Section Extract.

Variable parse_float : string -> option float.

(** The body of the [try] block of [extract_features]. *)
Definition extract_features_try (behavioral_data : pyval) : result (list float) :=
  let features := [] in
  k <- key_features behavioral_data ;;
  let features := features ++ k in
  t <- touch_features behavioral_data ;;
  let features := features ++ t in
  s <- sensor_features behavioral_data ;;
  let features := features ++ s in
  z <- session_features behavioral_data ;;
  let features := features ++ z in
  arr <- Np.array_float64 parse_float features ;;
  Ok (Np.nan_to_num arr).

(** [extract_features]: the vector returned and the records logged. *)
Definition extract_features (behavioral_data : pyval)
  : list float * list log_record :=
  match extract_features_try behavioral_data with
  | Ok features => (features, [])
  | Raise e => (Np.zeros 73, [LogError "Error extracting features" e])
  end.

End Extract.

(** [min(a, b)] of Python: [a] unless [b] compares smaller. *)
Definition py_min2 (a b : float) : float := if flt b a then b else a.

Definition c03 : float := fin (3 # 10).
Definition c04 : float := fin (4 # 10).
Definition c05 : float := fin (5 # 10).
Definition c07 : float := fin (7 # 10).

Definition _calculate_risk_score (features : list float)
  (prediction_prob anomaly_score : float) : float :=
  let risk_score := Float.zero in
  let risk_score :=
    if flt prediction_prob c03 || fgt prediction_prob c07
    then fadd risk_score c03 else risk_score in
  let risk_score :=
    if flt anomaly_score (fopp c05)
    then fadd risk_score c04 else risk_score in
  let feature_variance := Np.var features in
  let risk_score :=
    if fgt feature_variance (Float.of_Z 10)
    then fadd risk_score c03 else risk_score in
  py_min2 risk_score Float.one.

Definition _get_risk_level (risk_score : float) : string :=
  if flt risk_score c03 then "Low"
  else if flt risk_score c07 then "Medium"
  else "High".

End MlBackend.

(* ================================================================== *)
(** ** api_server.py: the risk-assessment and validation endpoints *)

Module ApiServer.

Import MlBackend.
Open Scope string_scope.
Open Scope list_scope.

Inductive error_body : Type :=
| Message (msg : string)
| OfException (e : exn).

(** A JSON response: [success], its payload or error, and the HTTP status. *)
Inductive response (A : Type) : Type :=
| Success (data : A)
| Failure (status : nat) (error : error_body).

Arguments Success {A} data.
Arguments Failure {A} status error.

Record risk_indicators : Type := {
  typing_speed_anomaly : bool;
  sensor_variance_high : bool;
  touch_pattern_irregular : bool;
  session_consistency_low : bool
}.

Record risk_data : Type := {
  risk_score : float;
  risk_level : string;
  indicators : risk_indicators;
  feature_vector : list float
}.

(** The loop of lines 234-238: epoch differences of the pairs (i-1, i) of
    the event list in which both events are 'pressed'. *)
Definition pressed_intervals (key_events : pyval) (n : nat) : result (list float) :=
  for_each (seq 1 (n - 1))
    (fun i intervals =>
       ei <- py_index key_events i ;;
       evi <- py_getitem ei "event" ;;
       if py_eq_str evi "pressed" then
         eh <- py_index key_events (i - 1) ;;
         evh <- py_getitem eh "event" ;;
         if py_eq_str evh "pressed" then
           ti <- py_getitem ei "epoch" ;;
           th <- py_getitem eh "epoch" ;;
           d <- py_sub ti th ;;
           Ok (intervals ++ [d])
         else Ok intervals
       else Ok intervals)
    [].

(** Lines 231-243: the value left in [risk_indicators["typing_speed_anomaly"]]. *)
Definition typing_speed_check (behavioral_data : pyval) : result bool :=
  go <- has_more_than behavioral_data "keyEvents" 1 ;;
  if go then
    key_events <- py_getitem behavioral_data "keyEvents" ;;
    n <- py_len key_events ;;
    if (2 <=? n)%nat then
      intervals <- pressed_intervals key_events n ;;
      match intervals with
      | [] => Ok false
      | _ =>
          let avg_interval :=
            fdiv (py_sum intervals) (Float.of_nat (length intervals)) in
          Ok (fgt avg_interval (Float.of_Z 5000))
      end
    else Ok false
  else Ok false.

(** [[s.get('accelerometer', {}).get(axis, 0) for s in sensor_data]] *)
Definition acc_axis (samples : list pyval) (axis : string) : result (list pyval) :=
  mapM (fun s => a <- py_get s "accelerometer" (VDict []) ;; py_get a axis Py.zero)
       samples.

(** [sum((x - sum(l)/len(l))**2 for x in l) / len(l)] *)
Definition variance (l : list pyval) : result float :=
  xs <- mapM number l ;;
  let n := Float.of_nat (length xs) in
  let m := fdiv (py_sum xs) n in
  Ok (fdiv (py_sum (map (fun x => py_sq (fsub x m)) xs)) n).

(** Lines 246-258. *)
Definition sensor_variance_check (behavioral_data : pyval) : result bool :=
  go <- has_more_than behavioral_data "sensorData" 1 ;;
  if go then
    sensor_data <- py_getitem behavioral_data "sensorData" ;;
    samples <- py_iter sensor_data ;;
    acc_x <- acc_axis samples "x" ;;
    acc_y <- acc_axis samples "y" ;;
    acc_z <- acc_axis samples "z" ;;
    match acc_x, acc_y, acc_z with
    | _ :: _, _ :: _, _ :: _ =>
        variance_x <- variance acc_x ;;
        variance_y <- variance acc_y ;;
        variance_z <- variance acc_z ;;
        Ok (fgt (py_max3 variance_x variance_y variance_z) (Float.of_Z 15))
    | _, _, _ => Ok false
    end
  else Ok false.

(** The loop of lines 264-269. *)
Definition touch_movements (touch_events : pyval) (n : nat) : result (list float) :=
  for_each (seq 1 (n - 1))
    (fun i moves =>
       ei <- py_index touch_events i ;;
       evi <- py_getitem ei "event" ;;
       if py_eq_str evi "release" then
         eh <- py_index touch_events (i - 1) ;;
         evh <- py_getitem eh "event" ;;
         if py_eq_str evh "touch" then
           ci <- py_getitem ei "coordinates" ;;
           xi <- py_getitem ci "x" ;;
           ch <- py_getitem eh "coordinates" ;;
           xh <- py_getitem ch "x" ;;
           dx <- py_sub xi xh ;;
           yi <- py_getitem ci "y" ;;
           yh <- py_getitem ch "y" ;;
           dy <- py_sub yi yh ;;
           Ok (moves ++ [fsqrt (fadd (py_sq dx) (py_sq dy))])
         else Ok moves
       else Ok moves)
    [].

(** Lines 261-274. *)
Definition touch_pattern_check (behavioral_data : pyval) : result bool :=
  go <- has_more_than behavioral_data "touchEvents" 1 ;;
  if go then
    touch_events <- py_getitem behavioral_data "touchEvents" ;;
    n <- py_len touch_events ;;
    moves <- touch_movements touch_events n ;;
    match moves with
    | [] => Ok false
    | _ =>
        let avg_movement := fdiv (py_sum moves) (Float.of_nat (length moves)) in
        Ok (fgt avg_movement (Float.of_Z 100))
    end
  else Ok false.

(** [risk_indicators.values()] *)
Definition values (r : risk_indicators) : list bool :=
  [typing_speed_anomaly r; sensor_variance_high r;
   touch_pattern_irregular r; session_consistency_low r].

(** [sum] of booleans: the number of true ones. *)
Definition sum_bools (l : list bool) : nat := length (filter (fun b => b) l).

Definition level_of (score : float) : string :=
  if fgt score (fin (5 # 10)) then "High"
  else if fgt score (fin (2 # 10)) then "Medium"
  else "Low".

Section Endpoints.

Variable parse_float : string -> option float.

(** The body of the [try] block of [risk_assessment]: what was logged while
    it ran, and the response it returned or the exception that left it. *)
Definition risk_assessment_try (data : pyval)
  : list log_record * result (response risk_data) :=
  match (if py_truth data then py_in "behavioral_data" data else Ok false) with
  | Raise e => ([], Raise e)
  | Ok false =>
      ([], Ok (Failure 400 (Message "Missing required field: behavioral_data")))
  | Ok true =>
      match py_getitem data "behavioral_data" with
      | Raise e => ([], Raise e)
      | Ok behavioral_data =>
          let '(features, log) := extract_features parse_float behavioral_data in
          (log,
           typing <- typing_speed_check behavioral_data ;;
           sensor <- sensor_variance_check behavioral_data ;;
           touch <- touch_pattern_check behavioral_data ;;
           let risk_indicators :=
             {| typing_speed_anomaly := typing;
                sensor_variance_high := sensor;
                touch_pattern_irregular := touch;
                session_consistency_low := false |} in
           let score :=
             fdiv (Float.of_nat (sum_bools (values risk_indicators)))
                  (Float.of_nat (length (values risk_indicators))) in
           Ok (Success {| risk_score := score;
                          risk_level := level_of score;
                          indicators := risk_indicators;
                          feature_vector := features |}))
      end
  end.

Definition risk_assessment (data : pyval)
  : response risk_data * list log_record :=
  match risk_assessment_try data with
  | (log, Ok r) => (r, log)
  | (log, Raise e) =>
      (Failure 500 (OfException e),
       log ++ [LogError "Error performing risk assessment" e])
  end.

End Endpoints.

Record validation_results : Type := {
  is_valid : bool;
  errors : list string;
  warnings : list string;
  data_quality_score : float
}.

Definition add_error (msg : string) (v : validation_results) : validation_results :=
  {| is_valid := false;
     errors := errors v ++ [msg];
     warnings := warnings v;
     data_quality_score := data_quality_score v |}.

Definition add_warning (msg : string) (v : validation_results) : validation_results :=
  {| is_valid := is_valid v;
     errors := errors v;
     warnings := warnings v ++ [msg];
     data_quality_score := data_quality_score v |}.

Definition set_score (x : float) (v : validation_results) : validation_results :=
  {| is_valid := is_valid v;
     errors := errors v;
     warnings := warnings v;
     data_quality_score := x |}.

Definition required_fields : list string := ["keyEvents"; "touchEvents"; "sensorData"].

(** Lines 321-324. *)
Definition check_required (data : pyval) (v : validation_results)
  : result validation_results :=
  for_each required_fields
    (fun field v =>
       present <- py_in field data ;;
       if present then Ok v
       else Ok (add_error ("Missing required field: " ++ field)%string v))
    v.

(** Lines 327-349: the type check of one field, and the warning when it is a
    list shorter than [few] (no warning is attached to touchEvents). *)
Definition check_field (data : pyval) (field : string)
  (warning : option (nat * string)) (v : validation_results)
  : result validation_results :=
  present <- py_in field data ;;
  if present then
    x <- py_getitem data field ;;
    if negb (is_list x) then Ok (add_error (field ++ " must be a list")%string v)
    else
      match warning with
      | Some (few, msg) =>
          n <- py_len x ;;
          if (n <? few)%nat then Ok (add_warning msg v) else Ok v
      | None => Ok v
      end
  else Ok v.

(** [field in data and len(data[field]) >= k] *)
Definition has_at_least (data : pyval) (field : string) (k : nat) : result bool :=
  present <- py_in field data ;;
  if present then
    x <- py_getitem data field ;;
    n <- py_len x ;;
    Ok (k <=? n)%nat
  else Ok false.

(** One [if / elif / else] of lines 353-372. *)
Definition quality_factor (data : pyval) (field : string) (full half : nat)
  : result float :=
  a <- has_at_least data field full ;;
  if a then Ok Float.one
  else
    b <- has_at_least data field half ;;
    if b then Ok (fin (5 # 10)) else Ok Float.zero.

Definition validate_data_try (data : pyval) : result (response validation_results) :=
  if negb (py_truth data) then Ok (Failure 400 (Message "No data provided"))
  else
    let v := {| is_valid := true; errors := []; warnings := [];
                data_quality_score := Float.zero |} in
    v <- check_required data v ;;
    v <- check_field data "keyEvents" (Some (2%nat, "Very few key events detected")) v ;;
    v <- check_field data "touchEvents" None v ;;
    v <- check_field data "sensorData" (Some (5%nat, "Limited sensor data available")) v ;;
    k <- quality_factor data "keyEvents" 5 2 ;;
    s <- quality_factor data "sensorData" 10 5 ;;
    t <- quality_factor data "touchEvents" 3 1 ;;
    let quality_factors := [k; s; t] in
    let v := set_score (fdiv (py_sum quality_factors)
                             (Float.of_nat (length quality_factors))) v in
    Ok (Success v).

Definition validate_data (data : pyval)
  : response validation_results * list log_record :=
  match validate_data_try data with
  | Ok r => (r, [])
  | Raise e =>
      (Failure 500 (OfException e), [LogError "Error validating data" e])
  end.

End ApiServer.

(* ================================================================== *)
(** ** Sample payloads *)

Module Examples.

Open Scope string_scope.
Open Scope list_scope.

(** A [float()] that accepts no string. *)
Definition no_parse (s : string) : option float := None.

Definition int (z : Z) : pyval := VNum (Float.of_Z z).
Definition dec (q : Q) : pyval := VNum (fin q).

Definition key_event (k e : string) (t : Z) : pyval :=
  VDict [("key", VStr k); ("event", VStr e); ("epoch", int t);
         ("inputBox", VStr "name")].

Definition touch_event (e : string) (x y t : Z) : pyval :=
  VDict [("event", VStr e);
         ("coordinates", VDict [("x", int x); ("y", int y)]);
         ("epoch", int t)].

Definition xyz (x y z : Q) : pyval :=
  VDict [("x", dec x); ("y", dec y); ("z", dec z)].

(** The [sample_data] of the [__main__] block of ml_backend.py. *)
Definition sample_keys : pyval :=
  VList [key_event "a" "pressed" 1000; key_event "a" "released" 1200;
         key_event "b" "pressed" 1500; key_event "b" "released" 1700].

Definition sample_data : pyval :=
  VDict [("keyEvents", sample_keys);
         ("touchEvents", VList [touch_event "touch" 100 200 1000;
                                touch_event "release" 150 250 1200]);
         ("sensorData",
          VList [VDict [("accelerometer", xyz (1 # 10) (2 # 10) (98 # 10));
                        ("timestamp", int 1000)];
                 VDict [("accelerometer", xyz (2 # 10) (1 # 10) (97 # 10));
                        ("timestamp", int 1100)]]);
         ("sessionDuration", int 5000);
         ("typingSpeed", dec (8 # 10));
         ("falseEnters", int 0)].

(** [{}] *)
Definition empty_payload : pyval := VDict [].

(** Two key events without an 'event' field. *)
Definition malformed_keys : pyval :=
  VDict [("keyEvents", VList [VDict [("key", VStr "a")]; VDict [("key", VStr "b")]])].

(** [keyEvents] holding a number, holding numbers, and a payload that is a
    list. *)
Definition wrong_type_keys : pyval := VDict [("keyEvents", int 5)].

Definition non_object_events : pyval :=
  VDict [("keyEvents", VList [int 1; int 2])].

Definition not_an_object : pyval := VList [].

(** A gyroscope reading in the first sensor sample only. *)
Definition with_gyro : list (string * pyval) :=
  [("accelerometer", xyz (1 # 10) (2 # 10) (98 # 10));
   ("gyroscope", xyz (1 # 100) (2 # 100) (3 # 100))].

Definition without_gyro : list (string * pyval) :=
  [("accelerometer", xyz (2 # 10) (1 # 10) (97 # 10))].

Definition gyro_first_only : pyval :=
  VDict [("sensorData", VList [VDict with_gyro; VDict without_gyro])].

(** A gyroscope and a magnetometer reading in both samples. *)
Definition full_sensors : pyval :=
  VDict [("sensorData",
          VList [VDict [("accelerometer", xyz (1 # 10) (2 # 10) (98 # 10));
                        ("gyroscope", xyz (1 # 100) (2 # 100) (3 # 100));
                        ("magnetometer", xyz 30 (-12) 41)];
                 VDict [("accelerometer", xyz (2 # 10) (1 # 10) (97 # 10));
                        ("gyroscope", xyz (3 # 100) (2 # 100) (1 # 100));
                        ("magnetometer", xyz 32 (-10) 40)]])].

End Examples.

(* ================================================================== *)
(** ** The feature groups as the specification words them *)

Module Spec.

Import MlBackend.
Open Scope string_scope.
Open Scope list_scope.

Definition least (l : list float) : float :=
  match l with
  | [] => NaN
  | x :: l' => fold_left Np.minimum l' x
  end.

Definition greatest (l : list float) : float :=
  match l with
  | [] => NaN
  | x :: l' => fold_left Np.maximum l' x
  end.

(** Mean, population standard deviation, minimum, maximum. *)
Definition mean_std_min_max (l : list float) : list float :=
  [Np.mean l; Np.std l; least l; greatest l].

(** The numbers one axis of one sensor takes over all samples. *)
Definition axis (samples : list pyval) (sensor name : string)
  : result (list float) :=
  mapM (fun s =>
          v <- py_getitem s sensor ;; a <- py_getitem v name ;; number a)
       samples.

(** The twelve values of a sensor: mean/std/min/max of x, of y and of z. *)
Definition sensor_block (samples : list pyval) (sensor : string)
  (block : list pyval) : Prop :=
  exists xs ys zs,
    axis samples sensor "x" = Ok xs
    /\ axis samples sensor "y" = Ok ys
    /\ axis samples sensor "z" = Ok zs
    /\ block = map VNum (mean_std_min_max xs ++ mean_std_min_max ys
                         ++ mean_std_min_max zs).

(** An optional sensor's block: computed when sample zero has the field,
    zero-filled otherwise. *)
Definition optional_block (sensor_data : pyval) (samples : list pyval)
  (sensor : string) (block : list pyval) : Prop :=
  exists s0 present,
    py_index sensor_data 0 = Ok s0
    /\ py_in sensor s0 = Ok present
    /\ if present : bool then sensor_block samples sensor block
       else block = zeros 12.

End Spec.

(* ================================================================== *)
(** ** Key events as the data model describes them *)

Module KeySpec.

Open Scope string_scope.
Open Scope list_scope.

Inductive key_state : Type := Pressed | Released.

(** [{key, event, epoch, inputBox}], the epoch an integer timestamp. *)
Record key_event : Type := {
  ev_key : string;
  ev_event : key_state;
  ev_epoch : Z;
  ev_inputBox : string
}.

Definition state_name (s : key_state) : string :=
  match s with
  | Pressed => "pressed"
  | Released => "released"
  end.

Definition state_eqb (a b : key_state) : bool :=
  match a, b with
  | Pressed, Pressed | Released, Released => true
  | _, _ => false
  end.

(** The JSON object of a key event. *)
Definition encode (e : key_event) : pyval :=
  VDict [("key", VStr (ev_key e));
         ("event", VStr (state_name (ev_event e)));
         ("epoch", VNum (Float.of_Z (ev_epoch e)));
         ("inputBox", VStr (ev_inputBox e))].

(** For every adjacent pair of events whose first is in state [first] and
    whose second is in state [second]: second.epoch - first.epoch.  An event
    is only paired with the event right after it in the list. *)
Fixpoint pair_times (first second : key_state) (evs : list key_event) : list Z :=
  match evs with
  | [] => []
  | a :: rest =>
      match rest with
      | [] => []
      | b :: _ =>
          if state_eqb (ev_event a) first && state_eqb (ev_event b) second
          then (ev_epoch b - ev_epoch a)%Z :: pair_times first second rest
          else pair_times first second rest
      end
  end.

(** Dwell: released.epoch - pressed.epoch over pressed -> released pairs. *)
Definition dwell_times (evs : list key_event) : list Z :=
  pair_times Pressed Released evs.

(** Flight: pressed.epoch - released.epoch over released -> pressed pairs. *)
Definition flight_times (evs : list key_event) : list Z :=
  pair_times Released Pressed evs.

(** Mean, population std, min, max, 25th and 75th percentile of the dwell
    times; all zero when there is none. *)
Definition dwell_group (evs : list key_event) : list float :=
  match map Float.of_Z (dwell_times evs) with
  | [] => Np.zeros 6
  | d => Spec.mean_std_min_max d ++ [Np.percentile d 25; Np.percentile d 75]
  end.

(** Mean, population std, min, max of the flight times; zero when none. *)
Definition flight_group (evs : list key_event) : list float :=
  match map Float.of_Z (flight_times evs) with
  | [] => Np.zeros 4
  | d => Spec.mean_std_min_max d
  end.

(** [{a,pressed,1000}, {a,released,1200}, {b,pressed,1500}, {b,released,1700}] *)
Definition scenario : list key_event :=
  [ {| ev_key := "a"; ev_event := Pressed; ev_epoch := 1000; ev_inputBox := "name" |};
    {| ev_key := "a"; ev_event := Released; ev_epoch := 1200; ev_inputBox := "name" |};
    {| ev_key := "b"; ev_event := Pressed; ev_epoch := 1500; ev_inputBox := "name" |};
    {| ev_key := "b"; ev_event := Released; ev_epoch := 1700; ev_inputBox := "name" |} ].

Definition scenario_payload : pyval :=
  VDict [("keyEvents", VList (map encode scenario))].

End KeySpec.

(* ================================================================== *)
(** ** The risk rules as the specification words them *)

Module RiskSpec.

Import ApiServer.
Open Scope string_scope.
Open Scope list_scope.

(** Timestamps of all 'pressed' events, in order. *)
Definition press_epochs (evs : list KeySpec.key_event) : list Z :=
  map KeySpec.ev_epoch
      (filter (fun e => KeySpec.state_eqb (KeySpec.ev_event e) KeySpec.Pressed) evs).

(** Intervals between consecutive 'pressed' events. *)
Definition press_intervals (evs : list KeySpec.key_event) : list Z :=
  Np.adjacent (fun a b => (b - a)%Z) (press_epochs evs).

(** Their mean. *)
Definition mean_press_interval (evs : list KeySpec.key_event) : float :=
  Np.mean (map Float.of_Z (press_intervals evs)).

(** Two keys typed ten seconds apart, each held for 100 ms. *)
Definition slow_typing : list KeySpec.key_event :=
  [ {| KeySpec.ev_key := "a"; KeySpec.ev_event := KeySpec.Pressed;
       KeySpec.ev_epoch := 0; KeySpec.ev_inputBox := "name" |};
    {| KeySpec.ev_key := "a"; KeySpec.ev_event := KeySpec.Released;
       KeySpec.ev_epoch := 100; KeySpec.ev_inputBox := "name" |};
    {| KeySpec.ev_key := "b"; KeySpec.ev_event := KeySpec.Pressed;
       KeySpec.ev_epoch := 10000; KeySpec.ev_inputBox := "name" |};
    {| KeySpec.ev_key := "b"; KeySpec.ev_event := KeySpec.Released;
       KeySpec.ev_epoch := 10100; KeySpec.ev_inputBox := "name" |} ].

Definition slow_typing_data : pyval :=
  VDict [("keyEvents", VList (map KeySpec.encode slow_typing))].

Definition slow_typing_request : pyval :=
  VDict [("behavioral_data", slow_typing_data)].

(** The number of flags that are set. *)
Definition flag_count (r : risk_indicators) : nat :=
  (Nat.b2n (typing_speed_anomaly r) + Nat.b2n (sensor_variance_high r)
   + Nat.b2n (touch_pattern_irregular r) + Nat.b2n (session_consistency_low r))%nat.

Definition quarters : list float :=
  [Float.zero; fin (1 # 4); fin (1 # 2); fin (3 # 4); Float.one].

(** The three contributions of the aggregated score. *)
Definition probability_risk (prediction_probability : float) : float :=
  if flt prediction_probability (fin (3 # 10))
     || fgt prediction_probability (fin (7 # 10))
  then fin (3 # 10) else Float.zero.

Definition anomaly_risk (anomaly_score : float) : float :=
  if flt anomaly_score (fin (- (1 # 2))) then fin (4 # 10) else Float.zero.

Definition variance_risk (pca_features : list float) : float :=
  if fgt (Np.var pca_features) (Float.of_Z 10) then fin (3 # 10) else Float.zero.

(** Their sum, capped at 1. *)
Definition aggregate (prediction_probability anomaly_score : float)
  (pca_features : list float) : float :=
  let total :=
    fadd (fadd (probability_risk prediction_probability)
               (anomaly_risk anomaly_score))
         (variance_risk pca_features) in
  if flt Float.one total then Float.one else total.

(** A request whose payload is the sample data of ml_backend.py. *)
Definition sample_request : pyval :=
  VDict [("behavioral_data", Examples.sample_data)].

(** A payload with a field, but none of the required ones. *)
Definition unrelated_payload : list (string * pyval) :=
  [("sessionDuration", Examples.int 5000)].

End RiskSpec.

(* ================================================================== *)
(** ** The rhythm group and the whole key section *)

Module RhythmSpec.

Open Scope string_scope.
Open Scope list_scope.

(** Mean, population std, min, max of the intervals between successive
    'pressed' events; zero with fewer than two presses. *)
Definition rhythm_group (evs : list KeySpec.key_event) : list float :=
  if (1 <? length (RiskSpec.press_epochs evs))%nat
  then Spec.mean_std_min_max (map Float.of_Z (RiskSpec.press_intervals evs))
  else Np.zeros 4.

(** What the key section appends for a list of well-formed key events. *)
Definition key_block (evs : list KeySpec.key_event) : list pyval :=
  if (1 <? length evs)%nat
  then map VNum (KeySpec.dwell_group evs ++ KeySpec.flight_group evs
                 ++ rhythm_group evs)
  else MlBackend.zeros 18.


End RhythmSpec.

(* ================================================================== *)
(** ** Sensor samples and touch events as the data model describes them *)

Module SensorSpec.

Open Scope string_scope.
Open Scope list_scope.

Record vec3 : Type := { vx : float; vy : float; vz : float }.

(** [{accelerometer, gyroscope?, magnetometer?, timestamp}] *)
Record sensor_sample : Type := {
  accelerometer : vec3;
  gyroscope : option vec3;
  magnetometer : option vec3;
  timestamp : Z
}.

Inductive sensor : Type := Accelerometer | Gyroscope | Magnetometer.


Definition reading (k : sensor) (s : sensor_sample) : option vec3 :=
  match k with
  | Accelerometer => Some (accelerometer s)
  | Gyroscope => gyroscope s
  | Magnetometer => magnetometer s
  end.

Definition has (k : sensor) (s : sensor_sample) : bool :=
  match reading k s with Some _ => true | None => false end.

Definition encode_vec (v : vec3) : pyval :=
  VDict [("x", VNum (vx v)); ("y", VNum (vy v)); ("z", VNum (vz v))].

Definition optional_field (name : string) (v : option vec3)
  : list (string * pyval) :=
  match v with
  | Some r => [(name, encode_vec r)]
  | None => []
  end.

(** The JSON object of a sample; an absent optional sensor has no field. *)
Definition encode (s : sensor_sample) : pyval :=
  VDict (("accelerometer", encode_vec (accelerometer s))
         :: optional_field "gyroscope" (gyroscope s)
         ++ optional_field "magnetometer" (magnetometer s)
         ++ [("timestamp", VNum (Float.of_Z (timestamp s)))]).

(** The readings of sensor [k] that are there. *)
Definition readings (k : sensor) (samples : list sensor_sample) : list vec3 :=
  flat_map (fun s => match reading k s with Some v => [v] | None => [] end)
           samples.

(** Sensor [k] is uniform when sample zero lacks it or every sample has it. *)
Definition uniform (k : sensor) (samples : list sensor_sample) : bool :=
  match samples with
  | [] => true
  | s0 :: _ => implb (has k s0) (forallb (has k) samples)
  end.

(** Mean, std, min, max of x, then of y, then of z. *)
Definition twelve (vs : list vec3) : list pyval :=
  map VNum (Spec.mean_std_min_max (map vx vs)
            ++ Spec.mean_std_min_max (map vy vs)
            ++ Spec.mean_std_min_max (map vz vs)).

(** The block of an optional sensor: decided by sample zero. *)
Definition optional_twelve (k : sensor) (samples : list sensor_sample)
  : list pyval :=
  match samples with
  | [] => MlBackend.zeros 12
  | s0 :: _ =>
      if has k s0 then twelve (readings k samples) else MlBackend.zeros 12
  end.


End SensorSpec.

(* ================================================================== *)
(** ** Touch events as the data model describes them *)

Module TouchSpec.

Open Scope string_scope.
Open Scope list_scope.

Inductive touch_state : Type := Touch | Release.

(** [{event, coordinates: {x, y}, epoch}] *)
Record touch_event : Type := {
  t_event : touch_state;
  t_x : Q;
  t_y : Q;
  t_epoch : Z
}.

Definition state_name (s : touch_state) : string :=
  match s with
  | Touch => "touch"
  | Release => "release"
  end.

Definition is_touch (e : touch_event) : bool :=
  match t_event e with Touch => true | Release => false end.

Definition is_release (e : touch_event) : bool :=
  match t_event e with Release => true | Touch => false end.

Definition encode (e : touch_event) : pyval :=
  VDict [("event", VStr (state_name (t_event e)));
         ("coordinates", VDict [("x", VNum (fin (t_x e))); ("y", VNum (fin (t_y e)))]);
         ("epoch", VNum (Float.of_Z (t_epoch e)))].

(** Euclidean distance from [a] to [b]. *)
Definition distance (a b : touch_event) : float :=
  fsqrt (fadd (py_sq (fsub (fin (t_x b)) (fin (t_x a))))
              (py_sq (fsub (fin (t_y b)) (fin (t_y a))))).

(** The distance of every adjacent pair whose first event is a touch and
    whose second is a release. *)
Fixpoint pair_moves (evs : list touch_event) : list float :=
  match evs with
  | [] => []
  | a :: rest =>
      match rest with
      | [] => []
      | b :: _ =>
          if is_touch a && is_release b
          then distance a b :: pair_moves rest
          else pair_moves rest
      end
  end.

(** Mean, population std, min, max of the movements; zero when none. *)
Definition movement_group (evs : list touch_event) : list float :=
  match pair_moves evs with
  | [] => Np.zeros 4
  | d => Spec.mean_std_min_max d
  end.

End TouchSpec.

(* ================================================================== *)
(** ** Well-formed samples *)

Module Samples.

Open Scope string_scope.
Open Scope list_scope.

Definition reading (x y z : Q) : SensorSpec.vec3 :=
  {| SensorSpec.vx := fin x; SensorSpec.vy := fin y; SensorSpec.vz := fin z |}.

(** Two samples that both carry a gyroscope reading. *)
Definition uniform_samples : list SensorSpec.sensor_sample :=
  [ {| SensorSpec.accelerometer := reading (1 # 10) (2 # 10) (98 # 10);
       SensorSpec.gyroscope := Some (reading (1 # 100) (2 # 100) (3 # 100));
       SensorSpec.magnetometer := None;
       SensorSpec.timestamp := 1000 |};
    {| SensorSpec.accelerometer := reading (2 # 10) (1 # 10) (97 # 10);
       SensorSpec.gyroscope := Some (reading (3 # 100) (2 # 100) (1 # 100));
       SensorSpec.magnetometer := None;
       SensorSpec.timestamp := 1100 |} ].


(** touch(100, 200) -> release(400, 600): a movement of 500. *)
Definition long_swipe : list TouchSpec.touch_event :=
  [ {| TouchSpec.t_event := TouchSpec.Touch;
       TouchSpec.t_x := 100; TouchSpec.t_y := 200; TouchSpec.t_epoch := 1000 |};
    {| TouchSpec.t_event := TouchSpec.Release;
       TouchSpec.t_x := 400; TouchSpec.t_y := 600; TouchSpec.t_epoch := 1200 |} ].

Definition touch_payload (evs : list TouchSpec.touch_event) : pyval :=
  VDict [("touchEvents", VList (map TouchSpec.encode evs))].

Definition touch_request (evs : list TouchSpec.touch_event) : pyval :=
  VDict [("behavioral_data", touch_payload evs)].

End Samples.

(* ================================================================== *)
(** ** A whole behavioral sample *)

Module Sample.

Open Scope string_scope.
Open Scope list_scope.

(** The fields [extract_features] reads. *)
Definition known_fields : list string :=
  ["keyEvents"; "touchEvents"; "sensorData";
   "sessionDuration"; "typingSpeed"; "falseEnters"].

Definition same_fields (kv kv' : list (string * pyval)) : Prop :=
  forall name, In name known_fields -> lookup name kv = lookup name kv'.

(** [d.get(name, 0)] *)
Definition scalar (kv : list (string * pyval)) (name : string) : pyval :=
  match lookup name kv with
  | Some x => x
  | None => Py.zero
  end.

(** [{keyEvents, touchEvents, sensorData, sessionDuration, typingSpeed,
    falseEnters}] *)
Record behavioral_sample : Type := {
  keyEvents : list KeySpec.key_event;
  touchEvents : list TouchSpec.touch_event;
  sensorData : list SensorSpec.sensor_sample;
  sessionDuration : float;
  typingSpeed : float;
  falseEnters : float
}.

Definition encode (b : behavioral_sample) : pyval :=
  VDict [("keyEvents", VList (map KeySpec.encode (keyEvents b)));
         ("touchEvents", VList (map TouchSpec.encode (touchEvents b)));
         ("sensorData", VList (map SensorSpec.encode (sensorData b)));
         ("sessionDuration", VNum (sessionDuration b));
         ("typingSpeed", VNum (typingSpeed b));
         ("falseEnters", VNum (falseEnters b))].

(** With at least two sensor samples, the optional sensors are uniform. *)
Definition consistent (b : behavioral_sample) : bool :=
  (length (sensorData b) <? 2)%nat
  || (SensorSpec.uniform SensorSpec.Gyroscope (sensorData b)
      && SensorSpec.uniform SensorSpec.Magnetometer (sensorData b)).

(** The sensor block of consistent samples. *)
Definition sensor_block (samples : list SensorSpec.sensor_sample) : list pyval :=
  if (1 <? length samples)%nat
  then SensorSpec.twelve (SensorSpec.readings SensorSpec.Accelerometer samples)
       ++ SensorSpec.optional_twelve SensorSpec.Gyroscope samples
       ++ SensorSpec.optional_twelve SensorSpec.Magnetometer samples
  else MlBackend.zeros 36.

Definition sections (b : behavioral_sample) : list pyval :=
  RhythmSpec.key_block (keyEvents b)
  ++ map VNum (TouchSpec.movement_group (touchEvents b))
  ++ sensor_block (sensorData b)
  ++ [VNum (sessionDuration b); VNum (typingSpeed b); VNum (falseEnters b)].


Definition numbers (l : list pyval) : list float :=
  flat_map (fun v => match v with VNum x => [x] | _ => [] end) l.

Definition session_fields : list string :=
  ["sessionDuration"; "typingSpeed"; "falseEnters"].

(** The vector of a consistent sample. *)
Definition features (b : behavioral_sample) : list float :=
  Np.nan_to_num (numbers (sections b)).


(** The sample data of ml_backend.py, typed. *)
Definition sample_data : behavioral_sample :=
  {| keyEvents := KeySpec.scenario;
     touchEvents :=
       [ {| TouchSpec.t_event := TouchSpec.Touch;
            TouchSpec.t_x := 100; TouchSpec.t_y := 200; TouchSpec.t_epoch := 1000 |};
         {| TouchSpec.t_event := TouchSpec.Release;
            TouchSpec.t_x := 150; TouchSpec.t_y := 250; TouchSpec.t_epoch := 1200 |} ];
     sensorData := Samples.uniform_samples;
     sessionDuration := Float.of_Z 5000;
     typingSpeed := fin (8 # 10);
     falseEnters := Float.zero |}.

(** A payload with the sample's scalars, listed last-first, and a field the
    extractor does not know. *)
Definition scalars_only : list (string * pyval) :=
  [("falseEnters", Examples.int 2); ("deviceId", VStr "abc");
   ("typingSpeed", Examples.dec (8 # 10)); ("sessionDuration", Examples.int 5000)].

Definition scalars_only_plain : list (string * pyval) :=
  [("sessionDuration", Examples.int 5000); ("typingSpeed", Examples.dec (8 # 10));
   ("falseEnters", Examples.int 2)].

End Sample.

(* ================================================================== *)
(** ** Payloads for validation *)

Module ValidationSpec.

Open Scope string_scope.
Open Scope list_scope.

(** Values [len()] rejects: null, booleans, numbers. *)
Definition unsized (x : pyval) : bool :=
  match x with
  | VNone | VBool _ | VNum _ => true
  | _ => false
  end.

(** Lists whose elements are not events at all. *)
Definition odd_lists : list (string * pyval) :=
  [("keyEvents", VList [VNone]); ("touchEvents", VList []);
   ("sensorData", VList [VStr "x"; Examples.int 3])].

(** A number where the sensor list should be. *)
Definition number_for_list : list (string * pyval) :=
  [("keyEvents", VList []); ("touchEvents", VList []);
   ("sensorData", Examples.int 7)].

End ValidationSpec.

(* ================================================================== *)
(** ** ml_backend.py: training, prediction and the model state

    The scaler, the PCA, the network and the isolation forest are library
    objects.  They appear here as handles of abstract types, and the calls
    into them as functions that may raise; what fitting does inside a handle
    is not modelled.  Only error records are logged. *)

Module Service.

Import MlBackend.
Open Scope string_scope.
Open Scope list_scope.

(** [f"feature_{i}"] *)
Definition feature_name (i : nat) : string :=
  "feature_" ++ DecimalString.NilZero.string_of_uint (Nat.to_uint i).

(** [[f"feature_{i}" for i in range(n)]] *)
Definition default_names (n : nat) : list string := map feature_name (seq 0 n).

(** [abs] *)
Definition fabs (x : float) : float :=
  match x with
  | Fin q => fin (Qabs.Qabs q)
  | PInf | NInf => PInf
  | NaN => NaN
  end.

(** [np.array] of a list of vectors: a matrix when all rows have one length. *)
Definition np_array (rows : list (list float)) : result (list (list float)) :=
  match rows with
  | [] => Ok []
  | r :: rest =>
      if forallb (fun r' => (length r' =? length r)%nat) rest
      then Ok rows else Raise ValueError
  end.

(** [features.shape[1]]: an empty array has one dimension only. *)
Definition shape1 (m : list (list float)) : result nat :=
  match m with
  | [] => Raise IndexError
  | r :: _ => Ok (length r)
  end.

Section Model.

(** The library objects. *)
Variables (scaler_t pca_t model_t forest_t labels_t report_t : Type).

(** [ML_AVAILABLE] and [float()] on strings. *)
Variable ML_AVAILABLE : bool.
Variable parse_float : string -> option float.

(** [np.array(labels)], and everything [train_model] does after naming the
    features: split, scale, reduce, fit, evaluate, save. *)
Variable label_array : pyval -> result labels_t.
Variable learn : list (list float) -> labels_t -> result report_t.

(** [scaler.transform], [pca.transform], [model.predict(...)[0][0]],
    [isolation_forest.decision_function(...)[0]] and
    [isolation_forest.predict(...)[0]]. *)
Variable scale : scaler_t -> list float -> result (list float).
Variable reduce : pca_t -> list float -> result (list float).
Variable classify : model_t -> list float -> result float.
Variable decision_function : forest_t -> list float -> result float.
Variable forest_predict : forest_t -> list float -> result Z.

Record service : Type := {
  scaler : option scaler_t;
  pca : option pca_t;
  model : option model_t;
  isolation_forest : option forest_t;
  feature_names : option (list string)
}.

Definition set_feature_names (names : list string) (s : service) : service :=
  {| scaler := scaler s; pca := pca s; model := model s;
     isolation_forest := isolation_forest s;
     feature_names := Some names |}.

Inductive outcome (A : Type) : Type :=
| Results (r : A)
| Error (e : ApiServer.error_body).

Arguments Results {A} r.
Arguments Error {A} e.

(** [train_model], up to the call into the libraries: the result, the
    service afterwards and the error records logged. *)
Definition train_model (s : service) (training_data labels : pyval)
  : outcome report_t * service * list log_record :=
  if negb ML_AVAILABLE
  then (Error (ApiServer.Message "ML libraries not available"), s, [])
  else
    match py_iter training_data with
    | Raise e =>
        (Error (ApiServer.OfException e), s, [LogError "Error training model" e])
    | Ok samples =>
        let extracted := map (extract_features parse_float) samples in
        let log := concat (map snd extracted) in
        match (features <- np_array (map fst extracted) ;;
               labels <- label_array labels ;;
               n <- shape1 features ;;
               Ok (features, labels, n)) with
        | Raise e =>
            (Error (ApiServer.OfException e), s,
             log ++ [LogError "Error training model" e])
        | Ok (features, labels, n) =>
            let s := set_feature_names (default_names n) s in
            match learn features labels with
            | Ok r => (Results r, s, log)
            | Raise e =>
                (Error (ApiServer.OfException e), s,
                 log ++ [LogError "Error training model" e])
            end
        end
    end.

Record prediction : Type := {
  p_prediction : Z;
  prediction_probability : float;
  confidence : float;
  is_anomaly : bool;
  anomaly_score : float;
  p_risk_score : float;
  p_risk_level : string
}.

(** [obj.method(...)] on an attribute that may be [None]. *)
Definition call {H A : Type} (h : option H) (f : H -> result A) : result A :=
  match h with
  | Some x => f x
  | None => Raise AttributeError
  end.

(** The body of the [try] block of [predict], after feature extraction. *)
Definition predict_try (s : service) (features : list float) : result prediction :=
  features_scaled <- call (scaler s) (fun h => scale h features) ;;
  features_pca <- call (pca s) (fun h => reduce h features_scaled) ;;
  prediction_prob <- call (model s) (fun h => classify h features_pca) ;;
  let prediction := if fgt prediction_prob c05 then 1%Z else 0%Z in
  let confidence := fmul (fabs (fsub prediction_prob c05)) (Float.of_Z 2) in
  anomaly_score <-
    call (isolation_forest s) (fun h => decision_function h features_pca) ;;
  label <- call (isolation_forest s) (fun h => forest_predict h features_pca) ;;
  let is_anomaly := (label =? -1)%Z in
  let risk_score := _calculate_risk_score features_pca prediction_prob anomaly_score in
  Ok {| p_prediction := prediction;
        prediction_probability := prediction_prob;
        confidence := confidence;
        is_anomaly := is_anomaly;
        anomaly_score := anomaly_score;
        p_risk_score := risk_score;
        p_risk_level := _get_risk_level risk_score |}.

Definition predict (s : service) (behavioral_data : pyval)
  : outcome prediction * list log_record :=
  if negb ML_AVAILABLE || match model s with None => true | Some _ => false end
  then (Error (ApiServer.Message "Model not available"), [])
  else
    let '(features, log) := extract_features parse_float behavioral_data in
    match predict_try s features with
    | Ok r => (Results r, log)
    | Raise e =>
        (Error (ApiServer.OfException e),
         log ++ [LogError "Error making prediction" e])
    end.

Record model_info : Type := {
  model_loaded : bool;
  scaler_loaded : bool;
  pca_loaded : bool;
  isolation_forest_loaded : bool;
  info_feature_names : option (list string)
}.

Definition loaded {A : Type} (h : option A) : bool :=
  match h with Some _ => true | None => false end.

(** [get_model_info], without the directory name and the model summary. *)
Definition get_model_info (s : service) : outcome model_info :=
  if negb ML_AVAILABLE then Error (ApiServer.Message "ML libraries not available")
  else Results {| model_loaded := loaded (model s);
                  scaler_loaded := loaded (scaler s);
                  pca_loaded := loaded (pca s);
                  isolation_forest_loaded := loaded (isolation_forest s);
                  info_feature_names := feature_names s |}.

(** [reset_model]: the attributes afterwards (the saved files it removes
    are outside the model). *)
Definition reset_model (s : service) : service :=
  {| scaler := None; pca := None; model := None;
     isolation_forest := None; feature_names := None |}.

End Model.

Arguments Results {A} r.
Arguments Error {A} e.
Arguments scaler {scaler_t pca_t model_t forest_t} s.
Arguments pca {scaler_t pca_t model_t forest_t} s.
Arguments model {scaler_t pca_t model_t forest_t} s.
Arguments isolation_forest {scaler_t pca_t model_t forest_t} s.
Arguments feature_names {scaler_t pca_t model_t forest_t} s.
Arguments set_feature_names {scaler_t pca_t model_t forest_t} names s.
Arguments train_model {scaler_t pca_t model_t forest_t labels_t report_t}
  ML_AVAILABLE parse_float label_array learn s training_data labels.
Arguments predict_try {scaler_t pca_t model_t forest_t}
  scale reduce classify decision_function forest_predict s features.
Arguments predict {scaler_t pca_t model_t forest_t}
  ML_AVAILABLE parse_float scale reduce classify decision_function
  forest_predict s behavioral_data.
Arguments get_model_info {scaler_t pca_t model_t forest_t} ML_AVAILABLE s.
Arguments reset_model {scaler_t pca_t model_t forest_t} s.

End Service.

(* ================================================================== *)
(** ** api_server.py: the feature, training and prediction endpoints *)

Module Endpoints.

Import MlBackend ApiServer.
Open Scope string_scope.
Open Scope list_scope.

Record extraction : Type := {
  features : list float;
  feature_count : nat;
  feature_names : list string
}.

(** [names or default]: the stored names unless they are None or empty. *)
Definition names_or (names : option (list string)) (default : list string)
  : list string :=
  match names with
  | Some (n :: rest) => n :: rest
  | _ => default
  end.

(** [not data or 'a' not in data or 'b' not in data], with short circuit:
    whether the request lacks a field, or the exception raised on the way. *)
Fixpoint lacks_field (data : pyval) (fields : list string) : result bool :=
  match fields with
  | [] => Ok false
  | f :: rest =>
      present <- py_in f data ;;
      if present then lacks_field data rest else Ok true
  end.

Definition missing (data : pyval) (fields : list string) : result bool :=
  if py_truth data then lacks_field data fields else Ok true.

Section Routes.

Variables (scaler_t pca_t model_t forest_t labels_t report_t : Type).
Variable ML_AVAILABLE : bool.
Variable parse_float : string -> option float.
Variable label_array : pyval -> result labels_t.
Variable learn : list (list float) -> labels_t -> result report_t.
Variable scale : scaler_t -> list float -> result (list float).
Variable reduce : pca_t -> list float -> result (list float).
Variable classify : model_t -> list float -> result float.
Variable decision_function : forest_t -> list float -> result float.
Variable forest_predict : forest_t -> list float -> result Z.

Let service : Type := Service.service scaler_t pca_t model_t forest_t.

(** POST /api/features/extract *)
Definition extract_features (ml_service : service) (data : pyval)
  : response extraction * list log_record :=
  match missing data ["behavioral_data"] with
  | Raise e =>
      (Failure 500 (OfException e), [LogError "Error extracting features" e])
  | Ok true =>
      (Failure 400 (Message "Missing required field: behavioral_data"), [])
  | Ok false =>
      match py_getitem data "behavioral_data" with
      | Raise e =>
          (Failure 500 (OfException e), [LogError "Error extracting features" e])
      | Ok behavioral_data =>
          let '(features, log) :=
            MlBackend.extract_features parse_float behavioral_data in
          (Success {| features := features;
                      feature_count := length features;
                      feature_names :=
                        names_or (Service.feature_names ml_service)
                                 (Service.default_names (length features)) |},
           log)
      end
  end.

(** The checks of POST /api/model/train that come before training: either
    the 400 response, or the two values training is started with. *)
Definition train_request (data : pyval)
  : result (response report_t + pyval * pyval) :=
  lacking <- missing data ["training_data"; "labels"] ;;
  if lacking
  then Ok (inl (Failure 400
                  (Message "Missing required fields: training_data and labels")))
  else
    training_data <- py_getitem data "training_data" ;;
    labels <- py_getitem data "labels" ;;
    n <- py_len training_data ;;
    m <- py_len labels ;;
    if negb (n =? m)%nat
    then Ok (inl (Failure 400
                    (Message "Training data and labels must have the same length")))
    else if (n <? 6)%nat
    then Ok (inl (Failure 400
                    (Message "Need at least 6 training samples (3 legitimate + 3 fraudulent)")))
    else Ok (inr (training_data, labels)).

(** POST /api/model/train: the response, the service afterwards, the log. *)
Definition train_model (ml_service : service) (data : pyval)
  : response report_t * service * list log_record :=
  match train_request data with
  | Raise e =>
      (Failure 500 (OfException e), ml_service,
       [LogError "Error training model" e])
  | Ok (inl r) => (r, ml_service, [])
  | Ok (inr (training_data, labels)) =>
      match Service.train_model ML_AVAILABLE parse_float label_array learn
              ml_service training_data labels with
      | (Service.Error e, s, log) => (Failure 500 e, s, log)
      | (Service.Results r, s, log) => (Success r, s, log)
      end
  end.

(** POST /api/model/predict *)
Definition predict (ml_service : service) (data : pyval)
  : response Service.prediction * list log_record :=
  match missing data ["behavioral_data"] with
  | Raise e => (Failure 500 (OfException e), [LogError "Error making prediction" e])
  | Ok true =>
      (Failure 400 (Message "Missing required field: behavioral_data"), [])
  | Ok false =>
      match py_getitem data "behavioral_data" with
      | Raise e =>
          (Failure 500 (OfException e), [LogError "Error making prediction" e])
      | Ok behavioral_data =>
          match Service.predict ML_AVAILABLE parse_float scale reduce classify
                  decision_function forest_predict ml_service behavioral_data with
          | (Service.Error e, log) => (Failure 500 e, log)
          | (Service.Results r, log) => (Success r, log)
          end
      end
  end.

(** POST /api/model/reset *)
Definition reset_model (ml_service : service) : service :=
  Service.reset_model ml_service.

End Routes.

Arguments extract_features {scaler_t pca_t model_t forest_t}
  parse_float ml_service data.
Arguments train_request {report_t} data.
Arguments train_model {scaler_t pca_t model_t forest_t labels_t report_t}
  ML_AVAILABLE parse_float label_array learn ml_service data.
Arguments predict {scaler_t pca_t model_t forest_t}
  ML_AVAILABLE parse_float scale reduce classify decision_function
  forest_predict ml_service data.
Arguments reset_model {scaler_t pca_t model_t forest_t} ml_service.

End Endpoints.

(* ================================================================== *)
(** ** A stub service *)

Module Stub.

Open Scope string_scope.
Open Scope list_scope.

(** Library objects that pass vectors through and answer with constants. *)
Definition service : Type := Service.service unit unit unit unit.

Definition fresh : service :=
  {| Service.scaler := Some tt; Service.pca := Some tt;
     Service.model := Some tt; Service.isolation_forest := Some tt;
     Service.feature_names := None |}.

Definition label_array (labels : pyval) : result unit := Ok tt.
Definition learn (m : list (list float)) (l : unit) : result unit := Ok tt.
Definition scale (h : unit) (v : list float) : result (list float) := Ok v.
Definition reduce (h : unit) (v : list float) : result (list float) := Ok v.
Definition classify (h : unit) (v : list float) : result float := Ok (fin (9 # 10)).
Definition decision_function (h : unit) (v : list float) : result float :=
  Ok (fin (1 # 10)).
Definition forest_predict (h : unit) (v : list float) : result Z := Ok 1%Z.

(** One training sample with key events and one without. *)
Definition mixed_training : pyval :=
  VList [KeySpec.scenario_payload; Examples.empty_payload].

Definition six_labels : pyval :=
  VList [Examples.int 1; Examples.int 1; Examples.int 1;
         Examples.int 0; Examples.int 0; Examples.int 0].

Definition six_samples : pyval :=
  VList [Examples.empty_payload; Examples.empty_payload; Examples.empty_payload;
         Examples.empty_payload; Examples.empty_payload; Examples.empty_payload].

Definition train_request : pyval :=
  VDict [("training_data", six_samples); ("labels", six_labels)].

Definition short_request : pyval :=
  VDict [("training_data", VList [Examples.empty_payload]);
         ("labels", VList [Examples.int 1])].

Definition sample_request : pyval :=
  VDict [("behavioral_data", Examples.sample_data)].

End Stub.

(* ================================================================== *)
(** ** The movement the risk endpoint measures *)

Module Motion.

Open Scope string_scope.
Open Scope list_scope.

(** The values one accelerometer axis takes over the samples. *)
Definition acc (proj : SensorSpec.vec3 -> float)
  (samples : list SensorSpec.sensor_sample) : list float :=
  map (fun s => proj (SensorSpec.accelerometer s)) samples.






End Motion.

(* ================================================================== *)
(** ** Inversion of monadic code *)

Import MlBackend ApiServer.
Open Scope string_scope.
Open Scope list_scope.

Lemma bind_ok {A B : Type} (c : result A) (k : A -> result B) (b : B) :
  bind c k = Ok b -> exists a, c = Ok a /\ k a = Ok b.
Proof.
  destruct c as [a | e]; simpl; intros H; [ eauto | discriminate ].
Qed.

Lemma bind_raise {A B : Type} (c : result A) (k : A -> result B) (e : exn) :
  c = Raise e -> bind c k = Raise e.
Proof. intros ->; reflexivity. Qed.

(** Splits a hypothesis [x <- c ;; k = Ok b] into [c = Ok x] and [k x = Ok b]. *)
Tactic Notation "bind_inv" hyp(H) "as" ident(a) ident(E) :=
  apply bind_ok in H; destruct H as (a & E & H).

Create HintDb lengths.

Ltac ok_inv H := injection H as H; subst.

Lemma mapM_length {A B : Type} (f : A -> result B) (l : list A) (r : list B) :
  mapM f l = Ok r -> length r = length l.
Proof.
  revert r; induction l as [| a l IH]; simpl; intros r H.
  - ok_inv H; reflexivity.
  - bind_inv H as b Hb. bind_inv H as bs Hbs. ok_inv H. simpl. f_equal. auto.
Qed.

Lemma zeros_length (n : nat) : length (zeros n) = n.
Proof. apply repeat_length. Qed.

Lemma np_zeros_length (n : nat) : length (Np.zeros n) = n.
Proof. apply repeat_length. Qed.

Lemma nan_to_num_length (l : list float) : length (Np.nan_to_num l) = length l.
Proof. apply length_map. Qed.

Lemma stats4_length (l : list float) (s : list pyval) :
  stats4 l = Ok s -> length s = 4%nat.
Proof.
  unfold stats4; intros H.
  bind_inv H as mn Hmn. bind_inv H as mx Hmx. ok_inv H. reflexivity.
Qed.

Lemma stats4_of_length (l : list pyval) (s : list pyval) :
  stats4_of l = Ok s -> length s = 4%nat.
Proof.
  unfold stats4_of; intros H. bind_inv H as xs Hxs. eauto using stats4_length.
Qed.

Lemma stats6_length (l : list float) (s : list pyval) :
  stats6 l = Ok s -> length s = 6%nat.
Proof.
  unfold stats6; intros H. bind_inv H as s4 Hs4. ok_inv H.
  rewrite length_app, (stats4_length _ _ Hs4). reflexivity.
Qed.

#[local] Hint Resolve stats4_length stats4_of_length stats6_length : lengths.

(** The key section appends 14 values when [keyEvents] is present with more
    than one entry, and 18 otherwise. *)
Lemma key_features_length (bd : pyval) (k : list pyval) :
  key_features bd = Ok k ->
  exists b, has_more_than bd "keyEvents" 1 = Ok b
            /\ length k = (if b then 14 else 18)%nat.
Proof.
  unfold key_features, has_more_than; intros H.
  bind_inv H as present Hin. rewrite Hin; simpl. destruct present.
  - bind_inv H as ke Hke. rewrite Hke; simpl.
    bind_inv H as n Hn. rewrite Hn; simpl.
    destruct (1 <? n)%nat.
    + exists true; split; [ reflexivity | ].
      bind_inv H as dwell Hdwell. bind_inv H as f1 Hf1.
      bind_inv H as flight Hflight. bind_inv H as f2 Hf2.
      bind_inv H as presses Hpresses. bind_inv H as f3 Hf3.
      ok_inv H. rewrite !length_app.
      assert (length f1 = 6%nat) as ->.
      { destruct dwell; [ ok_inv Hf1; apply zeros_length | eauto with lengths ]. }
      assert (length f2 = 4%nat) as ->.
      { destruct flight; [ ok_inv Hf2; apply zeros_length | eauto with lengths ]. }
      assert (length f3 = 4%nat) as ->.
      { destruct (1 <? length presses)%nat.
        - bind_inv Hf3 as intervals Hint. eauto with lengths.
        - ok_inv Hf3; apply zeros_length. }
      reflexivity.
    + exists false; split; [ reflexivity | ]. ok_inv H. apply zeros_length.
  - exists false; split; [ reflexivity | ]. ok_inv H. apply zeros_length.
Qed.

Lemma touch_features_length (bd : pyval) (t : list pyval) :
  touch_features bd = Ok t -> length t = 4%nat.
Proof.
  unfold touch_features; intros H.
  bind_inv H as present Hin. destruct present.
  - bind_inv H as te Hte. bind_inv H as n Hn. destruct (1 <? n)%nat.
    + bind_inv H as moves Hmoves.
      destruct moves; [ ok_inv H; apply zeros_length | eauto with lengths ].
    + ok_inv H; apply zeros_length.
  - ok_inv H; apply zeros_length.
Qed.

Lemma sensor_stats_length (samples : list pyval) (sensor : string) (s : list pyval) :
  sensor_stats samples sensor = Ok s -> length s = 12%nat.
Proof.
  unfold sensor_stats; intros H.
  bind_inv H as xs Hxs. bind_inv H as ys Hys. bind_inv H as zs Hzs.
  bind_inv H as sx Hsx. bind_inv H as sy Hsy. bind_inv H as sz Hsz.
  ok_inv H. rewrite !length_app.
  rewrite (stats4_of_length _ _ Hsx), (stats4_of_length _ _ Hsy), (stats4_of_length _ _ Hsz).
  reflexivity.
Qed.

Lemma optional_sensor_stats_length (sd : pyval) (samples : list pyval)
  (sensor : string) (s : list pyval) :
  optional_sensor_stats sd samples sensor = Ok s -> length s = 12%nat.
Proof.
  unfold optional_sensor_stats; intros H.
  bind_inv H as s0 Hs0. bind_inv H as present Hin. destruct present.
  - eauto using sensor_stats_length.
  - ok_inv H; apply zeros_length.
Qed.

Lemma sensor_features_length (bd : pyval) (s : list pyval) :
  sensor_features bd = Ok s -> length s = 36%nat.
Proof.
  unfold sensor_features; intros H.
  bind_inv H as present Hin. destruct present.
  - bind_inv H as sd Hsd. bind_inv H as n Hn. destruct (1 <? n)%nat.
    + bind_inv H as samples Hsamples. bind_inv H as acc Hacc.
      bind_inv H as gyro Hgyro. bind_inv H as mag Hmag.
      ok_inv H. rewrite !length_app.
      rewrite (sensor_stats_length _ _ _ Hacc).
      rewrite (optional_sensor_stats_length _ _ _ _ Hgyro).
      rewrite (optional_sensor_stats_length _ _ _ _ Hmag). reflexivity.
    + ok_inv H; apply zeros_length.
  - ok_inv H; apply zeros_length.
Qed.

Lemma session_features_length (bd : pyval) (s : list pyval) :
  session_features bd = Ok s -> length s = 3%nat.
Proof.
  unfold session_features; intros H.
  bind_inv H as d Hd. bind_inv H as t Ht. bind_inv H as f Hf.
  ok_inv H. reflexivity.
Qed.

(** The try block, taken apart: the four sections, the conversion to
    float64 and the replacement of non-finite values. *)
Lemma extract_features_try_ok (pf : string -> option float) (bd : pyval)
  (v : list float) :
  extract_features_try pf bd = Ok v ->
  exists k t s z arr,
    key_features bd = Ok k /\ touch_features bd = Ok t
    /\ sensor_features bd = Ok s /\ session_features bd = Ok z
    /\ Np.array_float64 pf (k ++ t ++ s ++ z) = Ok arr
    /\ v = Np.nan_to_num arr.
Proof.
  unfold extract_features_try; intros H.
  bind_inv H as k Hk. bind_inv H as t Ht. bind_inv H as s Hs.
  bind_inv H as z Hz. bind_inv H as arr Harr. ok_inv H.
  simpl in Harr. rewrite <- !app_assoc in Harr.
  exists k, t, s, z, arr. repeat split; assumption.
Qed.

(* ================================================================== *)
(** ** The length of the feature vector *)

Lemma extract_features_try_length (pf : string -> option float) (bd : pyval)
  (v : list float) :
  extract_features_try pf bd = Ok v ->
  exists b k,
    has_more_than bd "keyEvents" 1 = Ok b
    /\ key_features bd = Ok k
    /\ length k = (if b then 14 else 18)%nat
    /\ length v = (if b then 57 else 61)%nat.
Proof.
  intros H.
  destruct (extract_features_try_ok _ _ _ H)
    as (k & t & s & z & arr & Hk & Ht & Hs & Hz & Harr & ->).
  destruct (key_features_length _ _ Hk) as (b & Hb & Hlen).
  exists b, k. repeat split; try assumption.
  rewrite nan_to_num_length.
  unfold Np.array_float64 in Harr. rewrite (mapM_length _ _ _ Harr).
  rewrite !length_app, Hlen.
  rewrite (touch_features_length _ _ Ht), (sensor_features_length _ _ Hs).
  rewrite (session_features_length _ _ Hz).
  destruct b; reflexivity.
Qed.

(** Every value [extract_features] returns is finite: the normal path ends
    with [nan_to_num], the fallback is all zeros. *)
Lemma nan_to_num_finite (l : list float) :
  forallb is_finite (Np.nan_to_num l) = true.
Proof.
  induction l as [| x l IH]; [ reflexivity | ].
  simpl. rewrite IH. destruct x; reflexivity.
Qed.

Lemma extract_features_finite (pf : string -> option float) (bd : pyval) :
  forallb is_finite (fst (extract_features pf bd)) = true.
Proof.
  unfold extract_features.
  destruct (extract_features_try pf bd) as [v | e] eqn:H; simpl fst.
  - destruct (extract_features_try_ok _ _ _ H)
      as (k & t & s & z & arr & _ & _ & _ & _ & _ & ->).
    apply nan_to_num_finite.
  - reflexivity.
Qed.

(** C9. On the path that does not fail, the length of the returned vector
    depends on the shape of the input: with [keyEvents] present and holding
    at least two entries the key section contributes 14 values and the vector
    has 57; with [keyEvents] absent or shorter the key section is 18 zeros and
    the vector has 61.  The normal path never yields 73 values: a vector of 73
    is returned exactly when the try block raised. *)
Theorem extract_features_length_by_shape (pf : string -> option float)
  (bd : pyval) :
  (forall v, extract_features_try pf bd = Ok v ->
     fst (extract_features pf bd) = v
     /\ (exists b k,
           has_more_than bd "keyEvents" 1 = Ok b
           /\ key_features bd = Ok k
           /\ length k = (if b then 14 else 18)%nat
           /\ length v = (if b then 57 else 61)%nat)
     /\ length v <> 73%nat)
  /\ (length (fst (extract_features pf bd)) = 73%nat
      <-> exists e, extract_features_try pf bd = Raise e).
Proof.
  split.
  - intros v H. split; [ unfold extract_features; rewrite H; reflexivity | ].
    destruct (extract_features_try_length _ _ _ H) as (b & k & Hb & Hk & Hlk & Hlv).
    split; [ exists b, k; auto | ].
    rewrite Hlv; destruct b; discriminate.
  - unfold extract_features.
    destruct (extract_features_try pf bd) as [v | e] eqn:H; simpl.
    + destruct (extract_features_try_length _ _ _ H) as (b & k & _ & _ & _ & Hlv).
      split.
      * rewrite Hlv; destruct b; discriminate.
      * intros (e & He); discriminate.
    + split; [ eauto | intros _; reflexivity ].
Qed.

Lemma extract_features_length_by_shape_witness :
  length (fst (extract_features Examples.no_parse Examples.sample_data)) = 57%nat
  /\ length (fst (extract_features Examples.no_parse Examples.empty_payload)) = 61%nat
  /\ length (fst (extract_features Examples.no_parse Examples.malformed_keys)) = 73%nat.
Proof.
  split; [ | split ].
  - destruct (extract_features_length_by_shape Examples.no_parse Examples.sample_data)
      as [H _].
    destruct (H _ eq_refl) as (-> & (b & k & Hb & _ & _ & Hlen) & _).
    vm_compute in Hb. injection Hb as <-. exact Hlen.
  - destruct (extract_features_length_by_shape Examples.no_parse Examples.empty_payload)
      as [H _].
    destruct (H _ eq_refl) as (-> & (b & k & Hb & _ & _ & Hlen) & _).
    vm_compute in Hb. injection Hb as <-. exact Hlen.
  - apply (extract_features_length_by_shape Examples.no_parse Examples.malformed_keys).
    exists (KeyError (KStr "event")). reflexivity.
Defined.

(** C1 at the empty payload.  On [{}] every section takes its zero-fill
    branch: 18 + 4 + 36 + 3 values are returned, all zero and finite, and
    nothing is logged; the vector does not have the 73 entries the fallback
    line calls the total number of features. *)
Theorem extract_features_empty_payload (pf : string -> option float) :
  extract_features pf Examples.empty_payload = (Np.zeros 61, [])
  /\ length (fst (extract_features pf Examples.empty_payload)) = 61%nat
  /\ length (fst (extract_features pf Examples.empty_payload)) <> 73%nat
  /\ forallb is_finite (fst (extract_features pf Examples.empty_payload)) = true.
Proof.
  repeat split; try reflexivity. discriminate.
Qed.

(** C2. [extract_features] is a total function of its input: it always
    returns a vector.  Whenever the try block raises -- whatever the exception
    -- the vector returned is the all-zero vector of length 73 and exactly one
    error record, carrying that exception, is logged. *)
Theorem extract_features_fallback (pf : string -> option float) (bd : pyval)
  (e : exn) :
  extract_features_try pf bd = Raise e ->
  extract_features pf bd = (Np.zeros 73, [LogError "Error extracting features" e])
  /\ length (fst (extract_features pf bd)) = 73%nat
  /\ Forall (fun x => x = Float.zero) (fst (extract_features pf bd)).
Proof.
  intros H. unfold extract_features. rewrite H. simpl fst.
  repeat split.
  unfold Np.zeros. apply Forall_forall. intros x Hx.
  apply repeat_spec in Hx. exact Hx.
Qed.

Lemma extract_features_fallback_witness :
  extract_features Examples.no_parse Examples.malformed_keys
  = (Np.zeros 73, [LogError "Error extracting features" (KeyError (KStr "event"))]).
Proof.
  apply (extract_features_fallback Examples.no_parse Examples.malformed_keys).
  reflexivity.
Defined.

(** The failures the fallback absorbs: a field of the wrong type, an element
    that is not an object, a payload that is not an object. *)
Example extract_features_wrong_type (pf : string -> option float) :
  extract_features pf Examples.wrong_type_keys
  = (Np.zeros 73, [LogError "Error extracting features" TypeError]).
Proof. reflexivity. Qed.

Example extract_features_non_object_events (pf : string -> option float) :
  extract_features pf Examples.non_object_events
  = (Np.zeros 73, [LogError "Error extracting features" TypeError]).
Proof. reflexivity. Qed.

Example extract_features_not_an_object (pf : string -> option float) :
  extract_features pf Examples.not_an_object
  = (Np.zeros 73, [LogError "Error extracting features" AttributeError]).
Proof. reflexivity. Qed.

(* ================================================================== *)
(** ** Optional sensors missing from a later sample *)

Lemma mapM_raises {A B : Type} (f : A -> result B) (l : list A) (a : A) :
  In a l -> (exists e, f a = Raise e) -> exists e, mapM f l = Raise e.
Proof.
  intros Hin (e & He). induction l as [| x l IH]; [ contradiction | ].
  simpl. destruct Hin as [-> | Hin].
  - rewrite He. simpl. eauto.
  - destruct (f x); simpl; [ | eauto ].
    destruct (IH Hin) as (e' & ->). simpl. eauto.
Qed.

Lemma sensor_stats_missing (samples : list pyval) (sensor : string)
  (kv : list (string * pyval)) :
  In (VDict kv) samples -> lookup sensor kv = None ->
  exists e, sensor_stats samples sensor = Raise e.
Proof.
  intros Hin Hnone. unfold sensor_stats, axis_values.
  destruct (mapM_raises
              (fun s => v <- py_getitem s sensor ;; py_getitem v "x")
              samples (VDict kv) Hin) as (e & ->).
  - exists (KeyError (KStr sensor)). simpl. rewrite Hnone. reflexivity.
  - simpl. eauto.
Qed.

Lemma getitem_in (bd : pyval) (field : string) (x : pyval) :
  py_getitem bd field = Ok x -> py_in field bd = Ok true.
Proof.
  destruct bd; simpl; try discriminate.
  destruct (lookup field kv); [ reflexivity | discriminate ].
Qed.

Lemma lookup_in (s : string) (kv : list (string * pyval)) :
  lookup s kv <> None -> py_in s (VDict kv) = Ok true.
Proof.
  simpl. destruct (lookup s kv); [ reflexivity | contradiction ].
Qed.

(** Continue on the successful outcome of the next call; when it raises, the
    whole block raises. *)
Ltac step :=
  match goal with
  | |- exists e, bind ?c _ = Raise e =>
      let E := fresh "E" in
      destruct c eqn:E; simpl bind; [ | eauto ]
  end.

Lemma sensor_features_heterogeneous (bd : pyval) (samples : list pyval)
  (kv0 kv : list (string * pyval)) (sensor : string) :
  sensor = "gyroscope" \/ sensor = "magnetometer" ->
  py_getitem bd "sensorData" = Ok (VList samples) ->
  (2 <= length samples)%nat ->
  nth_error samples 0 = Some (VDict kv0) ->
  lookup sensor kv0 <> None ->
  In (VDict kv) samples ->
  lookup sensor kv = None ->
  exists e, sensor_features bd = Raise e.
Proof.
  intros Hsensor Hget Hlen H0 Hfirst Hin Hlater.
  unfold sensor_features.
  rewrite (getitem_in _ _ _ Hget). simpl bind. rewrite Hget. simpl bind.
  replace (1 <? length samples)%nat with true
    by (symmetry; apply Nat.ltb_lt; lia).
  assert (Hopt : exists e,
             optional_sensor_stats (VList samples) samples sensor = Raise e).
  { unfold optional_sensor_stats, py_index. rewrite H0.
    cbn [bind]. rewrite (lookup_in _ _ Hfirst). cbn [bind].
    eauto using sensor_stats_missing. }
  destruct Hopt as (e & Hopt).
  step. destruct Hsensor as [-> | ->].
  - rewrite Hopt. simpl. eauto.
  - step. rewrite Hopt. simpl. eauto.
Qed.

(** C10. When [sensorData] is a list of at least two samples whose first
    sample has a 'gyroscope' (or 'magnetometer') field and some later sample
    is an object without it, the try block of [extract_features] raises, so
    the all-zero vector of length 73 is returned, with the error logged, and
    not a partially computed vector. *)
Theorem heterogeneous_sensor_samples_fall_back (pf : string -> option float)
  (bd : pyval) (samples : list pyval) (kv0 kv : list (string * pyval))
  (sensor : string) :
  sensor = "gyroscope" \/ sensor = "magnetometer" ->
  py_getitem bd "sensorData" = Ok (VList samples) ->
  (2 <= length samples)%nat ->
  nth_error samples 0 = Some (VDict kv0) ->
  lookup sensor kv0 <> None ->
  In (VDict kv) samples ->
  lookup sensor kv = None ->
  exists e,
    extract_features_try pf bd = Raise e
    /\ extract_features pf bd
       = (Np.zeros 73, [LogError "Error extracting features" e]).
Proof.
  intros Hsensor Hget Hlen H0 Hfirst Hin Hlater.
  assert (Htry : exists e, extract_features_try pf bd = Raise e).
  { destruct (sensor_features_heterogeneous _ _ _ _ _ Hsensor Hget Hlen H0 Hfirst Hin Hlater)
      as (e & He).
    unfold extract_features_try.
    step. step. rewrite He. simpl. eauto. }
  destruct Htry as (e & Htry). exists e. split; [ exact Htry | ].
  unfold extract_features. rewrite Htry. reflexivity.
Qed.

Lemma heterogeneous_sensor_samples_fall_back_witness :
  exists e,
    extract_features_try Examples.no_parse Examples.gyro_first_only = Raise e
    /\ extract_features Examples.no_parse Examples.gyro_first_only
       = (Np.zeros 73, [LogError "Error extracting features" e]).
Proof.
  apply (heterogeneous_sensor_samples_fall_back
           Examples.no_parse Examples.gyro_first_only
           [VDict Examples.with_gyro; VDict Examples.without_gyro]
           Examples.with_gyro Examples.without_gyro "gyroscope").
  - left; reflexivity.
  - reflexivity.
  - simpl; lia.
  - reflexivity.
  - simpl; discriminate.
  - simpl; right; left; reflexivity.
  - reflexivity.
Defined.

(* ================================================================== *)
(** ** The sensor block *)

Lemma amin_ok (l : list float) (m : float) :
  Np.amin l = Ok m -> m = Spec.least l.
Proof. destruct l; simpl; intros H; [ discriminate | ok_inv H; reflexivity ]. Qed.

Lemma amax_ok (l : list float) (m : float) :
  Np.amax l = Ok m -> m = Spec.greatest l.
Proof. destruct l; simpl; intros H; [ discriminate | ok_inv H; reflexivity ]. Qed.

Lemma stats4_ok (l : list float) (s : list pyval) :
  stats4 l = Ok s -> s = map VNum (Spec.mean_std_min_max l).
Proof.
  unfold stats4; intros H.
  bind_inv H as mn Hmn. bind_inv H as mx Hmx. ok_inv H.
  rewrite (amin_ok _ _ Hmn), (amax_ok _ _ Hmx). reflexivity.
Qed.


(** Building the raw axis list and then the numeric array reads the same
    numbers as [Spec.axis]. *)
Lemma axis_values_asarray (samples : list pyval) (sensor name : string)
  (raw : list pyval) (xs : list float) :
  axis_values samples sensor name = Ok raw ->
  Np.asarray raw = Ok xs ->
  Spec.axis samples sensor name = Ok xs.
Proof.
  unfold axis_values, Np.asarray, Spec.axis.
  revert raw xs. induction samples as [| s samples IH]; simpl; intros raw xs Hraw Hxs.
  - ok_inv Hraw. simpl in Hxs. exact Hxs.
  - bind_inv Hraw as a Ha. bind_inv Hraw as rest Hrest. ok_inv Hraw.
    simpl in Hxs. bind_inv Hxs as x Hx. bind_inv Hxs as xs' Hxs'. ok_inv Hxs.
    bind_inv Ha as v Hv. rewrite Hv. simpl. rewrite Ha. simpl. rewrite Hx. simpl.
    rewrite (IH _ _ Hrest Hxs'). reflexivity.
Qed.

Lemma stats4_of_axis (samples : list pyval) (sensor name : string)
  (raw s : list pyval) :
  axis_values samples sensor name = Ok raw ->
  stats4_of raw = Ok s ->
  exists xs, Spec.axis samples sensor name = Ok xs
             /\ s = map VNum (Spec.mean_std_min_max xs).
Proof.
  intros Hraw Hs. unfold stats4_of in Hs. bind_inv Hs as xs Hxs.
  exists xs. split.
  - eapply axis_values_asarray; eauto.
  - apply stats4_ok; assumption.
Qed.

(** On success, the twelve values of a sensor are the four statistics of
    its x, y and z readings over all samples. *)
Lemma sensor_stats_ok (samples : list pyval) (sensor : string)
  (block : list pyval) :
  sensor_stats samples sensor = Ok block ->
  Spec.sensor_block samples sensor block.
Proof.
  unfold sensor_stats; intros H.
  bind_inv H as rx Hrx. bind_inv H as ry Hry. bind_inv H as rz Hrz.
  bind_inv H as sx Hsx. bind_inv H as sy Hsy. bind_inv H as sz Hsz.
  ok_inv H.
  destruct (stats4_of_axis _ _ _ _ _ Hrx Hsx) as (xs & Hxs & ->).
  destruct (stats4_of_axis _ _ _ _ _ Hry Hsy) as (ys & Hys & ->).
  destruct (stats4_of_axis _ _ _ _ _ Hrz Hsz) as (zs & Hzs & ->).
  exists xs, ys, zs.
  split; [ exact Hxs | split; [ exact Hys | split; [ exact Hzs | ] ] ].
  rewrite !map_app. reflexivity.
Qed.

Lemma optional_sensor_stats_ok (sd : pyval) (samples : list pyval)
  (sensor : string) (block : list pyval) :
  optional_sensor_stats sd samples sensor = Ok block ->
  Spec.optional_block sd samples sensor block.
Proof.
  unfold optional_sensor_stats; intros H.
  bind_inv H as s0 Hs0. bind_inv H as present Hin.
  exists s0, present.
  split; [ exact Hs0 | split; [ exact Hin | ] ].
  destruct present.
  - apply sensor_stats_ok; assumption.
  - ok_inv H; reflexivity.
Qed.

(** C8. Whenever extraction succeeds, the vector is the float64 conversion
    of key ++ touch ++ sensor ++ session sections, and the sensor section has
    36 values laid out as follows.  With [sensorData] present and holding at
    least two samples: 12 accelerometer values (mean, std, min, max of x, y
    and z), then 12 gyroscope values, computed over all samples if and only if
    sample zero has a 'gyroscope' field and zero otherwise, then 12
    magnetometer values under the same rule on sample zero.  With
    [sensorData] absent or shorter, all 36 values are zero. *)
Theorem sensor_block_layout (pf : string -> option float) (bd : pyval)
  (v : list float) :
  extract_features_try pf bd = Ok v ->
  exists k t s z arr b,
    key_features bd = Ok k /\ touch_features bd = Ok t
    /\ sensor_features bd = Ok s /\ session_features bd = Ok z
    /\ Np.array_float64 pf (k ++ t ++ s ++ z) = Ok arr
    /\ v = Np.nan_to_num arr
    /\ length s = 36%nat
    /\ has_more_than bd "sensorData" 1 = Ok b
    /\ if b then
         exists sensor_data samples acc gyro mag,
           py_getitem bd "sensorData" = Ok sensor_data
           /\ py_iter sensor_data = Ok samples
           /\ s = acc ++ gyro ++ mag
           /\ length acc = 12%nat /\ length gyro = 12%nat /\ length mag = 12%nat
           /\ Spec.sensor_block samples "accelerometer" acc
           /\ Spec.optional_block sensor_data samples "gyroscope" gyro
           /\ Spec.optional_block sensor_data samples "magnetometer" mag
       else s = zeros 36.
Proof.
  intros H.
  destruct (extract_features_try_ok _ _ _ H)
    as (k & t & s & z & arr & Hk & Ht & Hs & Hz & Harr & ->).
  exists k, t, s, z, arr.
  assert (Hlen := sensor_features_length _ _ Hs).
  assert (Hs' := Hs).
  unfold sensor_features in Hs. unfold has_more_than.
  bind_inv Hs as present Hin. rewrite Hin. cbn [bind]. destruct present.
  - bind_inv Hs as sd Hsd. rewrite Hsd. cbn [bind].
    bind_inv Hs as n Hn. rewrite Hn. cbn [bind].
    destruct (1 <? n)%nat.
    + exists true. repeat (split; [ assumption || reflexivity | ]).
      bind_inv Hs as samples Hsamples. bind_inv Hs as acc Hacc.
      bind_inv Hs as gyro Hgyro. bind_inv Hs as mag Hmag. ok_inv Hs.
      cbv iota. exists sd, samples, acc, gyro, mag.
      split; [ reflexivity | ]. split; [ exact Hsamples | ].
      split; [ reflexivity | ].
      split; [ eapply sensor_stats_length; eassumption | ].
      split; [ eapply optional_sensor_stats_length; eassumption | ].
      split; [ eapply optional_sensor_stats_length; eassumption | ].
      split; [ apply sensor_stats_ok; assumption | ].
      split; apply optional_sensor_stats_ok; assumption.
    + exists false. repeat (split; [ assumption || reflexivity | ]).
      ok_inv Hs; reflexivity.
  - exists false. repeat (split; [ assumption || reflexivity | ]).
    ok_inv Hs; reflexivity.
Qed.

Lemma sensor_block_layout_witness :
  exists s samples gyro,
    sensor_features Examples.full_sensors = Ok s
    /\ length s = 36%nat
    /\ Spec.optional_block
         (VList samples) samples "gyroscope" gyro.
Proof.
  destruct (sensor_block_layout Examples.no_parse Examples.full_sensors _ eq_refl)
    as (k & t & s & z & arr & b & _ & _ & Hs & _ & _ & _ & Hlen & Hb & Hlayout).
  vm_compute in Hb. injection Hb as <-.
  destruct Hlayout
    as (sd & samples & acc & gyro & mag & Hsd & Hsamples & _ & _ & _ & _ & _ & Hgyro & _).
  vm_compute in Hsd. injection Hsd as <-.
  vm_compute in Hsamples. injection Hsamples as <-.
  eexists s, _, gyro.
  split; [ exact Hs | split; [ exact Hlen | exact Hgyro ] ].
Defined.

(* ================================================================== *)
(** ** Dwell and flight times *)

Lemma Qred_inject_Z (z : Z) : Qred (inject_Z z) = inject_Z z.
Proof.
  apply Qcanon.Qred_identity. simpl. apply Z.gcd_1_r.
Qed.

Lemma fsub_of_Z (b a : Z) :
  fsub (Float.of_Z b) (Float.of_Z a) = Float.of_Z (b - a).
Proof.
  unfold Float.of_Z, fsub, fin. f_equal.
  rewrite <- (Qred_inject_Z (b - a)). apply Qred_complete.
  unfold Z.sub. rewrite inject_Z_plus, inject_Z_opp. reflexivity.
Qed.

Lemma py_eq_str_state (s t : KeySpec.key_state) :
  py_eq_str (VStr (KeySpec.state_name s)) (KeySpec.state_name t)
  = KeySpec.state_eqb s t.
Proof. destruct s, t; reflexivity. Qed.

Lemma nth_error_encode (prefix : list KeySpec.key_event) (a : KeySpec.key_event)
  (rest : list KeySpec.key_event) :
  nth_error (map KeySpec.encode (prefix ++ a :: rest)) (length prefix)
  = Some (KeySpec.encode a).
Proof.
  rewrite map_app. rewrite nth_error_app2; rewrite length_map; [ | lia ].
  rewrite Nat.sub_diag. reflexivity.
Qed.

(** The index loop over the encoded events collects what [pair_times]
    describes, from any position on. *)
Lemma adjacent_times_loop (first second : KeySpec.key_state)
  (evs suffix : list KeySpec.key_event) :
  forall (prefix : list KeySpec.key_event) (acc : list float),
    evs = prefix ++ suffix ->
    for_each (seq (length prefix) (length suffix - 1))
      (fun i times =>
         ei <- py_index (VList (map KeySpec.encode evs)) i ;;
         evi <- py_getitem ei "event" ;;
         if py_eq_str evi (KeySpec.state_name first) then
           ej <- py_index (VList (map KeySpec.encode evs)) (i + 1) ;;
           evj <- py_getitem ej "event" ;;
           if py_eq_str evj (KeySpec.state_name second) then
             tj <- py_getitem ej "epoch" ;;
             ti <- py_getitem ei "epoch" ;;
             t <- py_sub tj ti ;;
             Ok (times ++ [t])
           else Ok times
         else Ok times)
      acc
    = Ok (acc ++ map Float.of_Z (KeySpec.pair_times first second suffix)).
Proof.
  induction suffix as [| a suffix IH]; intros prefix acc Hevs.
  - simpl. rewrite app_nil_r. reflexivity.
  - destruct suffix as [| b rest].
    + simpl. rewrite app_nil_r. reflexivity.
    + replace (length (a :: b :: rest) - 1)%nat with (S (length rest))
        by (simpl; lia).
      cbn [seq for_each].
      assert (Ha : py_index (VList (map KeySpec.encode evs)) (length prefix)
                   = Ok (KeySpec.encode a)).
      { unfold py_index. rewrite Hevs, nth_error_encode. reflexivity. }
      assert (Hb : py_index (VList (map KeySpec.encode evs)) (length prefix + 1)
                   = Ok (KeySpec.encode b)).
      { unfold py_index. rewrite Hevs.
        change (prefix ++ a :: b :: rest) with (prefix ++ [a] ++ b :: rest).
        rewrite app_assoc.
        replace (length prefix + 1)%nat with (length (prefix ++ [a]))
          by (rewrite length_app; reflexivity).
        rewrite nth_error_encode. reflexivity. }
      rewrite Ha. cbn [bind].
      change (py_getitem (KeySpec.encode a) "event")
        with (Ok (A := pyval) (VStr (KeySpec.state_name (KeySpec.ev_event a)))).
      cbn [bind]. rewrite py_eq_str_state.
      specialize (IH (prefix ++ [a]) ).
      rewrite length_app in IH. simpl length in IH.
      replace (length prefix + 1)%nat with (S (length prefix)) in IH by lia.
      replace (S (length rest) - 1)%nat with (length rest) in IH by lia.
      assert (Hevs' : evs = (prefix ++ [a]) ++ b :: rest).
      { rewrite <- app_assoc. exact Hevs. }
      cbn [KeySpec.pair_times].
      destruct (KeySpec.state_eqb (KeySpec.ev_event a) first); cbn [andb].
      * rewrite Hb. cbn [bind].
        change (py_getitem (KeySpec.encode b) "event")
          with (Ok (A := pyval) (VStr (KeySpec.state_name (KeySpec.ev_event b)))).
        cbn [bind]. rewrite py_eq_str_state.
        destruct (KeySpec.state_eqb (KeySpec.ev_event b) second).
        -- change (py_getitem (KeySpec.encode b) "epoch")
             with (Ok (A := pyval) (VNum (Float.of_Z (KeySpec.ev_epoch b)))).
           change (py_getitem (KeySpec.encode a) "epoch")
             with (Ok (A := pyval) (VNum (Float.of_Z (KeySpec.ev_epoch a)))).
           cbn [bind py_sub number as_number]. rewrite fsub_of_Z.
           rewrite (IH _ Hevs'). cbn [map]. rewrite <- app_assoc. reflexivity.
        -- cbn [bind]. apply IH. exact Hevs'.
      * cbn [bind]. apply IH. exact Hevs'.
Qed.

(** The extractor's dwell loop and flight loop on encoded events. *)
Lemma dwell_times_encode (evs : list KeySpec.key_event) :
  MlBackend.dwell_times (VList (map KeySpec.encode evs)) (length evs)
  = Ok (map Float.of_Z (KeySpec.dwell_times evs)).
Proof.
  exact (adjacent_times_loop KeySpec.Pressed KeySpec.Released evs evs [] [] eq_refl).
Qed.

Lemma flight_times_encode (evs : list KeySpec.key_event) :
  MlBackend.flight_times (VList (map KeySpec.encode evs)) (length evs)
  = Ok (map Float.of_Z (KeySpec.flight_times evs)).
Proof.
  exact (adjacent_times_loop KeySpec.Released KeySpec.Pressed evs evs [] [] eq_refl).
Qed.

Lemma pair_times_short (first second : KeySpec.key_state)
  (evs : list KeySpec.key_event) :
  (length evs < 2)%nat -> KeySpec.pair_times first second evs = [].
Proof.
  destruct evs as [| a [| b rest]]; simpl; intros H; try reflexivity. lia.
Qed.

Lemma dwell_group_length (evs : list KeySpec.key_event) :
  length (KeySpec.dwell_group evs) = 6%nat.
Proof.
  unfold KeySpec.dwell_group.
  destruct (map Float.of_Z (KeySpec.dwell_times evs)); reflexivity.
Qed.

Lemma flight_group_length (evs : list KeySpec.key_event) :
  length (KeySpec.flight_group evs) = 4%nat.
Proof.
  unfold KeySpec.flight_group.
  destruct (map Float.of_Z (KeySpec.flight_times evs)); reflexivity.
Qed.

(** The key section on encoded events: the dwell group, the flight group,
    then the rhythm values. *)
Lemma key_features_encode (bd : pyval) (evs : list KeySpec.key_event)
  (k : list pyval) :
  py_getitem bd "keyEvents" = Ok (VList (map KeySpec.encode evs)) ->
  key_features bd = Ok k ->
  exists rest,
    k = map VNum (KeySpec.dwell_group evs)
        ++ map VNum (KeySpec.flight_group evs) ++ rest.
Proof.
  intros Hget H. unfold key_features in H.
  rewrite (getitem_in _ _ _ Hget) in H. cbn [bind] in H.
  rewrite Hget in H. cbn [bind py_len] in H. rewrite length_map in H.
  destruct (1 <? length evs)%nat eqn:Hn.
  - rewrite dwell_times_encode in H. cbn [bind] in H.
    bind_inv H as f1 Hf1.
    rewrite flight_times_encode in H. cbn [bind] in H.
    bind_inv H as f2 Hf2.
    bind_inv H as presses Hpresses. bind_inv H as f3 Hf3. ok_inv H.
    exists f3. f_equal; [ | f_equal ].
    + unfold KeySpec.dwell_group.
      destruct (map Float.of_Z (KeySpec.dwell_times evs));
        ok_inv Hf1; reflexivity.
    + unfold KeySpec.flight_group.
      destruct (map Float.of_Z (KeySpec.flight_times evs));
        ok_inv Hf2; reflexivity.
  - apply Nat.ltb_ge in Hn. ok_inv H.
    unfold KeySpec.dwell_group, KeySpec.flight_group.
    unfold KeySpec.dwell_times, KeySpec.flight_times.
    rewrite !pair_times_short by lia.
    exists (zeros 8). reflexivity.
Qed.

Lemma array_float64_numbers (pf : string -> option float) (g : list float)
  (rest : list pyval) (arr : list float) :
  Np.array_float64 pf (map VNum g ++ rest) = Ok arr ->
  exists arr', Np.array_float64 pf rest = Ok arr' /\ arr = g ++ arr'.
Proof.
  unfold Np.array_float64. revert arr.
  induction g as [| x g IH]; simpl; intros arr H.
  - eauto.
  - bind_inv H as tl Htl. ok_inv H.
    destruct (IH _ Htl) as (arr' & Harr' & ->). eauto.
Qed.

Lemma firstn_nan_to_num_app (g rest : list float) :
  firstn (length g) (Np.nan_to_num (g ++ rest)) = Np.nan_to_num g.
Proof.
  unfold Np.nan_to_num. rewrite map_app.
  rewrite <- (length_map (fun x => if is_finite x then x else Float.zero) g).
  rewrite firstn_app, firstn_all, Nat.sub_diag. simpl. apply app_nil_r.
Qed.

Lemma skipn_nan_to_num_app (g rest : list float) :
  skipn (length g) (Np.nan_to_num (g ++ rest)) = Np.nan_to_num rest.
Proof.
  unfold Np.nan_to_num. rewrite map_app.
  rewrite <- (length_map (fun x => if is_finite x then x else Float.zero) g).
  rewrite skipn_app, skipn_all, Nat.sub_diag. reflexivity.
Qed.

(** C3. The dwell loop scans the adjacent index pairs of the key-event
    list: it collects released.epoch - pressed.epoch for every pair (i, i+1)
    with event i 'pressed' and event i+1 'released'.  The first six features
    are mean, population std, min, max, 25th and 75th percentile of these
    dwell times, and are all zero when there is no such pair or fewer than two
    events; the next four are the flight statistics.  On the specification's
    scenario the dwell times are [200, 200] and the single flight time is 300,
    giving 200, 0, 200, 200, 200, 200 and 300, 0, 300, 300. *)
Theorem dwell_group_spec (pf : string -> option float)
  (evs : list KeySpec.key_event) (bd : pyval) (v : list float) :
  py_getitem bd "keyEvents" = Ok (VList (map KeySpec.encode evs)) ->
  extract_features_try pf bd = Ok v ->
  MlBackend.dwell_times (VList (map KeySpec.encode evs)) (length evs)
  = Ok (map Float.of_Z (KeySpec.dwell_times evs))
  /\ firstn 6 v = Np.nan_to_num (KeySpec.dwell_group evs)
  /\ firstn 4 (skipn 6 v) = Np.nan_to_num (KeySpec.flight_group evs)
  /\ ((length evs < 2)%nat \/ KeySpec.dwell_times evs = [] ->
      firstn 6 v = Np.zeros 6)
  /\ KeySpec.dwell_times KeySpec.scenario = [200; 200]%Z
  /\ KeySpec.flight_times KeySpec.scenario = [300]%Z
  /\ firstn 10 (fst (extract_features pf KeySpec.scenario_payload))
     = map Float.of_Z [200; 0; 200; 200; 200; 200; 300; 0; 300; 300]%Z.
Proof.
  intros Hget H.
  split; [ apply dwell_times_encode | ].
  destruct (extract_features_try_ok _ _ _ H)
    as (k & t & s & z & arr & Hk & Ht & Hs & Hz & Harr & ->).
  destruct (key_features_encode _ _ _ Hget Hk) as (rest & ->).
  rewrite <- !app_assoc in Harr.
  destruct (array_float64_numbers _ _ _ _ Harr) as (arr1 & Harr1 & ->).
  destruct (array_float64_numbers _ _ _ _ Harr1) as (arr2 & Harr2 & ->).
  assert (H6 : firstn 6 (Np.nan_to_num
                           (KeySpec.dwell_group evs
                            ++ KeySpec.flight_group evs ++ arr2))
               = Np.nan_to_num (KeySpec.dwell_group evs)).
  { rewrite <- (dwell_group_length evs) at 1. apply firstn_nan_to_num_app. }
  split; [ exact H6 | ].
  split.
  { rewrite <- (dwell_group_length evs) at 1. rewrite skipn_nan_to_num_app.
    rewrite <- (flight_group_length evs) at 1. apply firstn_nan_to_num_app. }
  split.
  { intros Hnone. rewrite H6.
    assert (Hd : KeySpec.dwell_times evs = []).
    { destruct Hnone as [Hshort | Hd]; [ | exact Hd ].
      apply pair_times_short; exact Hshort. }
    unfold KeySpec.dwell_group. rewrite Hd. reflexivity. }
  repeat split.
Qed.

Lemma dwell_group_spec_witness :
  firstn 6 (fst (extract_features Examples.no_parse KeySpec.scenario_payload))
  = map Float.of_Z [200; 0; 200; 200; 200; 200]%Z.
Proof.
  destruct (dwell_group_spec Examples.no_parse KeySpec.scenario
              KeySpec.scenario_payload _ eq_refl eq_refl)
    as (_ & H6 & _).
  exact H6.
Defined.

(* ================================================================== *)
(** ** The heuristic risk indicators *)

Lemma pair_times_step (first second : KeySpec.key_state)
  (a b : KeySpec.key_event) (rest : list KeySpec.key_event) :
  KeySpec.pair_times first second (a :: b :: rest)
  = if KeySpec.state_eqb (KeySpec.ev_event a) first
       && KeySpec.state_eqb (KeySpec.ev_event b) second
    then (KeySpec.ev_epoch b - KeySpec.ev_epoch a)%Z
         :: KeySpec.pair_times first second (b :: rest)
    else KeySpec.pair_times first second (b :: rest).
Proof. reflexivity. Qed.

(** The endpoint's loop over the encoded events: the epoch differences of
    the neighbouring entries that are both 'pressed'. *)
Lemma pressed_intervals_loop (evs suffix : list KeySpec.key_event) :
  forall (prefix : list KeySpec.key_event) (acc : list float),
    evs = prefix ++ suffix ->
    for_each (seq (S (length prefix)) (length suffix - 1))
      (fun i intervals =>
         ei <- py_index (VList (map KeySpec.encode evs)) i ;;
         evi <- py_getitem ei "event" ;;
         if py_eq_str evi "pressed" then
           eh <- py_index (VList (map KeySpec.encode evs)) (i - 1) ;;
           evh <- py_getitem eh "event" ;;
           if py_eq_str evh "pressed" then
             ti <- py_getitem ei "epoch" ;;
             th <- py_getitem eh "epoch" ;;
             d <- py_sub ti th ;;
             Ok (intervals ++ [d])
           else Ok intervals
         else Ok intervals)
      acc
    = Ok (acc ++ map Float.of_Z
                   (KeySpec.pair_times KeySpec.Pressed KeySpec.Pressed suffix)).
Proof.
  induction suffix as [| a suffix IH]; intros prefix acc Hevs.
  - simpl. rewrite app_nil_r. reflexivity.
  - destruct suffix as [| b rest].
    + simpl. rewrite app_nil_r. reflexivity.
    + replace (length (a :: b :: rest) - 1)%nat with (S (length rest))
        by (simpl; lia).
      cbn [seq for_each].
      assert (Ha : py_index (VList (map KeySpec.encode evs))
                     (S (length prefix) - 1)
                   = Ok (KeySpec.encode a)).
      { unfold py_index. rewrite Hevs.
        replace (S (length prefix) - 1)%nat with (length prefix) by lia.
        rewrite nth_error_encode. reflexivity. }
      assert (Hb : py_index (VList (map KeySpec.encode evs)) (S (length prefix))
                   = Ok (KeySpec.encode b)).
      { unfold py_index. rewrite Hevs.
        change (prefix ++ a :: b :: rest) with (prefix ++ [a] ++ b :: rest).
        rewrite app_assoc.
        replace (S (length prefix)) with (length (prefix ++ [a]))
          by (rewrite length_app; simpl; lia).
        rewrite nth_error_encode. reflexivity. }
      rewrite Hb. cbn [bind].
      change (py_getitem (KeySpec.encode b) "event")
        with (Ok (A := pyval) (VStr (KeySpec.state_name (KeySpec.ev_event b)))).
      cbn [bind].
      change "pressed" with (KeySpec.state_name KeySpec.Pressed).
      rewrite py_eq_str_state.
      specialize (IH (prefix ++ [a])).
      rewrite length_app in IH. simpl length in IH.
      replace (length prefix + 1)%nat with (S (length prefix)) in IH by lia.
      replace (S (length rest) - 1)%nat with (length rest) in IH by lia.
      assert (Hevs' : evs = (prefix ++ [a]) ++ b :: rest).
      { rewrite <- app_assoc. exact Hevs. }
      rewrite pair_times_step.
      rewrite andb_comm.
      destruct (KeySpec.state_eqb (KeySpec.ev_event b) KeySpec.Pressed); cbn [andb].
      * rewrite Ha. cbn [bind].
        change (py_getitem (KeySpec.encode a) "event")
          with (Ok (A := pyval) (VStr (KeySpec.state_name (KeySpec.ev_event a)))).
        cbn [bind]. rewrite py_eq_str_state.
        destruct (KeySpec.state_eqb (KeySpec.ev_event a) KeySpec.Pressed).
        -- change (py_getitem (KeySpec.encode b) "epoch")
             with (Ok (A := pyval) (VNum (Float.of_Z (KeySpec.ev_epoch b)))).
           change (py_getitem (KeySpec.encode a) "epoch")
             with (Ok (A := pyval) (VNum (Float.of_Z (KeySpec.ev_epoch a)))).
           cbn [bind py_sub number as_number]. rewrite fsub_of_Z.
           rewrite (IH _ Hevs'). cbn [map]. rewrite <- app_assoc. reflexivity.
        -- cbn [bind]. apply IH. exact Hevs'.
      * cbn [bind]. apply IH. exact Hevs'.
Qed.

(** What [typing_speed_check] computes on well-formed key events: the
    flag is set when at least one pair of neighbouring entries is
    pressed-pressed and the mean epoch difference of those pairs exceeds 5000.
    The press times of entries that are not neighbours are never compared. *)
Lemma typing_speed_check_encode (bd : pyval) (evs : list KeySpec.key_event) :
  py_getitem bd "keyEvents" = Ok (VList (map KeySpec.encode evs)) ->
  typing_speed_check bd
  = Ok (match map Float.of_Z
                  (KeySpec.pair_times KeySpec.Pressed KeySpec.Pressed evs) with
        | [] => false
        | l => fgt (fdiv (py_sum l) (Float.of_nat (length l))) (Float.of_Z 5000)
        end).
Proof.
  intros Hget. unfold typing_speed_check, has_more_than.
  rewrite (getitem_in _ _ _ Hget). cbn [bind].
  rewrite Hget. cbn [bind py_len]. rewrite length_map.
  destruct (1 <? length evs)%nat eqn:Hn.
  - cbn [bind]. apply Nat.ltb_lt in Hn.
    replace (2 <=? length evs)%nat with true
      by (symmetry; apply Nat.leb_le; lia).
    unfold pressed_intervals.
    pose proof (pressed_intervals_loop evs evs [] [] eq_refl) as Hloop.
    cbn [length app] in Hloop. rewrite Hloop. cbn [bind].
    destruct (map Float.of_Z
                (KeySpec.pair_times KeySpec.Pressed KeySpec.Pressed evs));
      reflexivity.
  - cbn [bind]. apply Nat.ltb_ge in Hn.
    rewrite pair_times_short by lia. reflexivity.
Qed.

(** C4 on a stream that alternates press and release.  The two presses are
    10000 apart, so the mean interval between consecutive 'pressed' events
    exceeds 5000 -- and the extractor's rhythm feature reports 10000 -- but
    the endpoint's loop only takes pairs of neighbouring list entries that are
    both 'pressed', finds none, and leaves typing_speed_anomaly false. *)
Theorem typing_speed_check_slow_typing (pf : string -> option float) :
  RiskSpec.press_intervals RiskSpec.slow_typing = [10000]%Z
  /\ fgt (RiskSpec.mean_press_interval RiskSpec.slow_typing) (Float.of_Z 5000)
     = true
  /\ nth 10 (fst (extract_features pf RiskSpec.slow_typing_data)) NaN
     = Float.of_Z 10000
  /\ pressed_intervals (VList (map KeySpec.encode RiskSpec.slow_typing)) 4 = Ok []
  /\ typing_speed_check RiskSpec.slow_typing_data = Ok false
  /\ exists r log,
       risk_assessment pf RiskSpec.slow_typing_request = (Success r, log)
       /\ typing_speed_anomaly (indicators r) = false.
Proof.
  repeat split.
  eexists _, _. split; reflexivity.
Qed.

Lemma sum_bools_flag_count (r : risk_indicators) :
  sum_bools (values r) = RiskSpec.flag_count r.
Proof.
  destruct r as [[] [] [] []]; reflexivity.
Qed.

(** What a successful risk assessment returns. *)
Lemma risk_assessment_success (pf : string -> option float) (data : pyval)
  (r : risk_data) (log : list log_record) :
  risk_assessment pf data = (Success r, log) ->
  exists typing sensor touch features,
    r = {| risk_score :=
             fdiv (Float.of_nat
                     (sum_bools [typing; sensor; touch; false]))
                  (Float.of_nat 4);
           risk_level :=
             level_of (fdiv (Float.of_nat
                               (sum_bools [typing; sensor; touch; false]))
                            (Float.of_nat 4));
           indicators :=
             {| typing_speed_anomaly := typing;
                sensor_variance_high := sensor;
                touch_pattern_irregular := touch;
                session_consistency_low := false |};
           feature_vector := features |}.
Proof.
  unfold risk_assessment, risk_assessment_try. intros H.
  destruct (if py_truth data then py_in "behavioral_data" data else Ok false)
    as [[|] | e]; try discriminate.
  destruct (py_getitem data "behavioral_data") as [bd | e]; try discriminate.
  destruct (extract_features pf bd) as [features log'].
  destruct (typing_speed_check bd) as [typing | e]; try discriminate.
  destruct (sensor_variance_check bd) as [sensor | e]; try discriminate.
  destruct (touch_pattern_check bd) as [touch | e]; try discriminate.
  cbn [bind] in H. injection H as <- _.
  exists typing, sensor, touch, features. reflexivity.
Qed.

(** C6. In every successful risk assessment the score is the number of
    true flags divided by four, hence one of 0, 1/4, 1/2, 3/4, 1, and the
    level is "High" above 0.5, "Medium" above 0.2 and "Low" otherwise. *)
Theorem heuristic_risk_score (pf : string -> option float) (data : pyval)
  (r : risk_data) (log : list log_record) :
  risk_assessment pf data = (Success r, log) ->
  risk_score r
  = fdiv (Float.of_nat (RiskSpec.flag_count (indicators r))) (Float.of_nat 4)
  /\ In (risk_score r) RiskSpec.quarters
  /\ risk_level r
     = (if fgt (risk_score r) (fin (1 # 2)) then "High"
        else if fgt (risk_score r) (fin (1 # 5)) then "Medium"
        else "Low").
Proof.
  intros H.
  destruct (risk_assessment_success _ _ _ _ H)
    as (typing & sensor & touch & features & ->).
  cbn [risk_score risk_level indicators].
  destruct typing, sensor, touch; vm_compute; intuition.
Qed.

Lemma heuristic_risk_score_witness :
  exists r log,
    risk_assessment Examples.no_parse RiskSpec.sample_request = (Success r, log)
    /\ risk_score r = Float.zero /\ risk_level r = "Low".
Proof.
  eexists _, _. split; [ reflexivity | ].
  destruct (heuristic_risk_score Examples.no_parse RiskSpec.sample_request
              _ _ eq_refl) as (Hscore & _ & Hlevel).
  split; [ exact Hscore | exact Hlevel ].
Defined.

(* ================================================================== *)
(** ** The aggregated risk score *)

(** C7. The aggregated score is the sum of three independent
    contributions -- 0.3 when the probability is below 0.3 or above 0.7, 0.4
    when the anomaly score is below -0.5, 0.3 when the population variance of
    the reduced features exceeds 10 -- capped at 1; it is a finite number in
    [0, 1].  The level is Low below 0.3, Medium below 0.7 and High otherwise. *)
Theorem aggregated_risk_score (features : list float)
  (prediction_prob anomaly_score : float) :
  _calculate_risk_score features prediction_prob anomaly_score
  = RiskSpec.aggregate prediction_prob anomaly_score features
  /\ (exists q : Q,
        _calculate_risk_score features prediction_prob anomaly_score = Fin q
        /\ 0 <= q /\ q <= 1)
  /\ forall q : Q,
       (q < 3 # 10 -> _get_risk_level (Fin q) = "Low")
       /\ (3 # 10 <= q -> q < 7 # 10 -> _get_risk_level (Fin q) = "Medium")
       /\ (7 # 10 <= q -> _get_risk_level (Fin q) = "High").
Proof.
  split; [ | split ].
  - unfold _calculate_risk_score, RiskSpec.aggregate.
    unfold RiskSpec.probability_risk, RiskSpec.anomaly_risk, RiskSpec.variance_risk.
    change (fin (- (1 # 2))) with (fopp c05).
    change (fin (3 # 10)) with c03. change (fin (7 # 10)) with c07.
    destruct (flt prediction_prob c03 || fgt prediction_prob c07);
      destruct (flt anomaly_score (fopp c05));
      destruct (fgt (Np.var features) (Float.of_Z 10)); reflexivity.
  - unfold _calculate_risk_score.
    destruct (flt prediction_prob c03 || fgt prediction_prob c07);
      destruct (flt anomaly_score (fopp c05));
      destruct (fgt (Np.var features) (Float.of_Z 10));
      eexists; (split; [ reflexivity | split; discriminate ]).
  - intros q. unfold _get_risk_level, flt, c03, c07, fin.
    change (Qred (3 # 10)) with (3 # 10). change (Qred (7 # 10)) with (7 # 10).
    repeat split.
    + intros Hlt. rewrite (proj1 (Qlt_alt _ _) Hlt). reflexivity.
    + intros Hge Hlt.
      destruct (q ?= 3 # 10)%Q eqn:Hc.
      * rewrite (proj1 (Qlt_alt _ _) Hlt). reflexivity.
      * apply Qlt_alt in Hc. exfalso. exact (Qlt_not_le _ _ Hc Hge).
      * rewrite (proj1 (Qlt_alt _ _) Hlt). reflexivity.
    + intros Hge.
      assert (H3 : 3 # 10 <= q) by (eapply Qle_trans; [ | exact Hge ]; discriminate).
      destruct (q ?= 3 # 10)%Q eqn:Hc.
      * destruct (q ?= 7 # 10)%Q eqn:Hd; try reflexivity.
        apply Qlt_alt in Hd. exfalso. exact (Qlt_not_le _ _ Hd Hge).
      * apply Qlt_alt in Hc. exfalso. exact (Qlt_not_le _ _ Hc H3).
      * destruct (q ?= 7 # 10)%Q eqn:Hd; try reflexivity.
        apply Qlt_alt in Hd. exfalso. exact (Qlt_not_le _ _ Hd Hge).
Qed.

Lemma aggregated_risk_score_witness :
  _get_risk_level (_calculate_risk_score [] (fin (1 # 10)) (fin (- (1)))) = "High"
  /\ _get_risk_level (_calculate_risk_score [] (fin (1 # 2)) Float.zero) = "Low".
Proof.
  destruct (aggregated_risk_score [] (fin (1 # 10)) (fin (- (1))))
    as (_ & _ & Hlevel).
  split.
  - apply (proj2 (proj2 (Hlevel (7 # 10)))). discriminate.
  - apply (proj1 (Hlevel 0)). reflexivity.
Defined.

(* ================================================================== *)
(** ** Validation *)

(** C5 as stated fails: the empty payload is falsy, so the endpoint answers
    it with the 400 error "No data provided" before any field is checked, and
    no validation result with three errors is produced. *)
Lemma validate_empty_payload_rejected :
  validate_data Examples.empty_payload
  = (Failure 400 (Message "No data provided"), [])
  /\ ~ (exists v,
          fst (validate_data Examples.empty_payload) = Success v
          /\ is_valid v = false /\ length (errors v) = 3%nat).
Proof.
  split; [ reflexivity | ].
  intros (v & H & _). discriminate H.
Qed.

(** C5, amended.  A non-empty payload object with none of the three
    required fields is answered with a validation result whose is_valid is
    false and whose errors are exactly the three missing-field messages, for
    keyEvents, touchEvents and sensorData in that order: all are collected,
    none stops the checks. *)
Theorem validate_missing_fields (kv : list (string * pyval)) :
  kv <> [] ->
  lookup "keyEvents" kv = None ->
  lookup "touchEvents" kv = None ->
  lookup "sensorData" kv = None ->
  validate_data (VDict kv)
  = (Success {| is_valid := false;
                errors := ["Missing required field: keyEvents";
                           "Missing required field: touchEvents";
                           "Missing required field: sensorData"];
                warnings := [];
                data_quality_score := Float.zero |},
     []).
Proof.
  intros Hne Hk Ht Hs.
  unfold validate_data, validate_data_try.
  replace (py_truth (VDict kv)) with true by (destruct kv; [ contradiction | reflexivity ]).
  cbn [negb].
  unfold check_required, required_fields, check_field, quality_factor, has_at_least.
  cbn [for_each py_in py_getitem bind].
  rewrite Hk, Ht, Hs. reflexivity.
Qed.

Lemma validate_missing_fields_witness :
  exists v,
    fst (validate_data (VDict RiskSpec.unrelated_payload)) = Success v
    /\ is_valid v = false /\ length (errors v) = 3%nat.
Proof.
  eexists. rewrite (validate_missing_fields RiskSpec.unrelated_payload).
  - repeat split.
  - discriminate.
  - reflexivity.
  - reflexivity.
  - reflexivity.
Defined.

(* ================================================================== *)
(** ** The key section on well-formed events *)







Lemma stats6_nonempty (l : list float) :
  l <> [] ->
  stats6 l
  = Ok (map VNum (Spec.mean_std_min_max l
                  ++ [Np.percentile l 25; Np.percentile l 75])).
Proof. destruct l; [ contradiction | reflexivity ]. Qed.




(* ================================================================== *)
(** ** Moving all timestamps *)






(* ================================================================== *)
(** ** The sensor section on well-formed samples *)



Section Axis.

Variables (name : string) (proj : SensorSpec.vec3 -> float).
Hypothesis getitem_axis :
  forall v, py_getitem (SensorSpec.encode_vec v) name = Ok (VNum (proj v)).



End Axis.













(* ================================================================== *)
(** ** The touch section on well-formed events *)










(* ================================================================== *)
(** ** The touch flag and the touch feature *)



Lemma finite_fsub (x y : float) :
  is_finite x = true -> is_finite y = true -> is_finite (fsub x y) = true.
Proof. destruct x, y; simpl; intros Hx Hy; try discriminate; reflexivity. Qed.

Lemma finite_fadd (x y : float) :
  is_finite x = true -> is_finite y = true -> is_finite (fadd x y) = true.
Proof. destruct x, y; simpl; intros Hx Hy; try discriminate; reflexivity. Qed.







Lemma mapM_app_ok {A B : Type} (f : A -> result B) (l1 l2 : list A)
  (r : list B) :
  mapM f (l1 ++ l2) = Ok r ->
  exists r1 r2, mapM f l1 = Ok r1 /\ mapM f l2 = Ok r2 /\ r = r1 ++ r2.
Proof.
  revert r. induction l1 as [| a l1 IH]; intros r H.
  - exists [], r. repeat split. exact H.
  - cbn [app mapM] in H. bind_inv H as b Hb. bind_inv H as bs Hbs. ok_inv H.
    destruct (IH _ Hbs) as (r1 & r2 & H1 & H2 & ->).
    exists (b :: r1), r2. cbn [mapM]. rewrite Hb, H1. repeat split. exact H2.
Qed.

(** What a successful risk assessment was computed from. *)
Lemma risk_assessment_inv (pf : string -> option float) (data : pyval)
  (r : risk_data) (log : list log_record) :
  risk_assessment pf data = (Success r, log) ->
  exists bd typing sensor touch,
    py_getitem data "behavioral_data" = Ok bd
    /\ typing_speed_check bd = Ok typing
    /\ sensor_variance_check bd = Ok sensor
    /\ touch_pattern_check bd = Ok touch
    /\ feature_vector r = fst (extract_features pf bd)
    /\ log = snd (extract_features pf bd)
    /\ indicators r
       = {| typing_speed_anomaly := typing;
            sensor_variance_high := sensor;
            touch_pattern_irregular := touch;
            session_consistency_low := false |}.
Proof.
  unfold risk_assessment, risk_assessment_try. intros H.
  destruct (if py_truth data then py_in "behavioral_data" data else Ok false)
    as [[|] | e]; try discriminate.
  destruct (py_getitem data "behavioral_data") as [bd | e] eqn:Hbd;
    try discriminate.
  destruct (extract_features pf bd) as [features log'] eqn:Hex.
  destruct (typing_speed_check bd) as [typing | e] eqn:Hty; try discriminate.
  destruct (sensor_variance_check bd) as [sensor | e] eqn:Hse; try discriminate.
  destruct (touch_pattern_check bd) as [touch | e] eqn:Hto; try discriminate.
  cbn [bind] in H. injection H as <- <-.
  exists bd, typing, sensor, touch.
  rewrite Hty, Hse, Hto, Hex. repeat split.
Qed.



(* ================================================================== *)
(** ** Which fields the extractor reads *)

Lemma key_features_lookup (kv kv' : list (string * pyval)) :
  lookup "keyEvents" kv = lookup "keyEvents" kv' ->
  key_features (VDict kv) = key_features (VDict kv').
Proof.
  intros H. unfold key_features. cbn [py_in py_getitem]. rewrite H. reflexivity.
Qed.

Lemma touch_features_lookup (kv kv' : list (string * pyval)) :
  lookup "touchEvents" kv = lookup "touchEvents" kv' ->
  touch_features (VDict kv) = touch_features (VDict kv').
Proof.
  intros H. unfold touch_features. cbn [py_in py_getitem]. rewrite H. reflexivity.
Qed.

Lemma sensor_features_lookup (kv kv' : list (string * pyval)) :
  lookup "sensorData" kv = lookup "sensorData" kv' ->
  sensor_features (VDict kv) = sensor_features (VDict kv').
Proof.
  intros H. unfold sensor_features. cbn [py_in py_getitem]. rewrite H. reflexivity.
Qed.

Lemma session_features_scalars (kv : list (string * pyval)) :
  session_features (VDict kv)
  = Ok (map (Sample.scalar kv) Sample.session_fields).
Proof.
  unfold session_features, Sample.scalar. cbn [py_get map Sample.session_fields].
  destruct (lookup "sessionDuration" kv), (lookup "typingSpeed" kv),
    (lookup "falseEnters" kv); reflexivity.
Qed.

(** X6. The result of [extract_features] on an object depends on nothing
    but the six fields keyEvents, touchEvents, sensorData, sessionDuration,
    typingSpeed and falseEnters: two payloads that agree on them, whatever
    other fields they hold and in whatever order, give the same vector and
    the same log. *)
Theorem extract_features_known_fields (pf : string -> option float)
  (kv kv' : list (string * pyval)) :
  Sample.same_fields kv kv' ->
  extract_features pf (VDict kv) = extract_features pf (VDict kv').
Proof.
  intros H. unfold extract_features, extract_features_try.
  rewrite (key_features_lookup kv kv') by (apply H; simpl; tauto).
  rewrite (touch_features_lookup kv kv') by (apply H; simpl; tauto).
  rewrite (sensor_features_lookup kv kv') by (apply H; simpl; tauto).
  rewrite !session_features_scalars.
  unfold Sample.scalar, Sample.session_fields. cbn [map].
  rewrite (H "sessionDuration"), (H "typingSpeed"), (H "falseEnters")
    by (simpl; tauto).
  reflexivity.
Qed.

Lemma extract_features_known_fields_witness :
  extract_features Examples.no_parse (VDict Sample.scalars_only)
  = extract_features Examples.no_parse (VDict Sample.scalars_only_plain).
Proof.
  apply (extract_features_known_fields Examples.no_parse
           Sample.scalars_only Sample.scalars_only_plain).
  intros name Hin. simpl in Hin.
  destruct Hin as [<- | [<- | [<- | [<- | [<- | [<- | []]]]]]]; reflexivity.
Defined.

(* ================================================================== *)
(** ** The session scalars *)

Lemma nth_nan_to_num_app (r1 xs : list float) (i : nat) (d : float) :
  nth (length (Np.nan_to_num r1) + i) (Np.nan_to_num (r1 ++ xs)) d
  = nth i (Np.nan_to_num xs) d.
Proof.
  unfold Np.nan_to_num. rewrite map_app. apply app_nth2_plus.
Qed.

(** X7. When extraction of an object succeeds, the last three entries of
    the vector are sessionDuration, typingSpeed and falseEnters, converted to
    float64 and with non-finite values replaced by 0; a field that is absent
    or null gives exactly 0. *)
Theorem session_scalars_last (pf : string -> option float)
  (kv : list (string * pyval)) (v : list float) :
  extract_features_try pf (VDict kv) = Ok v ->
  exists xs,
    Np.array_float64 pf (map (Sample.scalar kv) Sample.session_fields) = Ok xs
    /\ skipn (length v - 3) v = Np.nan_to_num xs
    /\ forall i name,
         nth_error Sample.session_fields i = Some name ->
         lookup name kv = None \/ lookup name kv = Some VNone ->
         nth (length v - 3 + i) v NaN = Float.zero.
Proof.
  intros H.
  destruct (extract_features_try_ok _ _ _ H)
    as (k & t & s & z & arr & _ & _ & _ & Hz & Harr & ->).
  rewrite session_features_scalars in Hz. injection Hz as <-.
  unfold Np.array_float64 in Harr.
  rewrite !app_assoc in Harr.
  destruct (mapM_app_ok _ _ _ _ Harr) as (r1 & xs & _ & Hxs & ->).
  exists xs. split; [ exact Hxs | ].
  assert (Hlen : length xs = 3%nat) by (rewrite (mapM_length _ _ _ Hxs); reflexivity).
  assert (Hcut : (length (Np.nan_to_num (r1 ++ xs)) - 3 = length (Np.nan_to_num r1))%nat).
  { rewrite !nan_to_num_length, length_app. lia. }
  split.
  - rewrite Hcut. unfold Np.nan_to_num. rewrite map_app.
    rewrite skipn_app, skipn_all, Nat.sub_diag. reflexivity.
  - intros i name Hi Hnone. rewrite Hcut, nth_nan_to_num_app.
    cbn [Sample.session_fields map mapM] in Hxs.
    bind_inv Hxs as d Hd. bind_inv Hxs as rest Hrest.
    bind_inv Hrest as t' Ht'. bind_inv Hrest as rest' Hrest'.
    bind_inv Hrest' as f Hf. cbn [bind] in Hrest'.
    ok_inv Hrest'. ok_inv Hrest. ok_inv Hxs.
    assert (Hzero : forall x, Np.to_float64 pf (Sample.scalar kv name) = Ok x ->
                              (if is_finite x then x else Float.zero) = Float.zero).
    { intros x Hx. unfold Sample.scalar in Hx.
      destruct Hnone as [Hn | Hn]; rewrite Hn in Hx; simpl in Hx;
        injection Hx as <-; reflexivity. }
    destruct i as [| [| [| i]]]; simpl in Hi;
      [ | | | destruct i; discriminate ];
      injection Hi as <-; cbn [map nth]; apply Hzero; assumption.
Qed.

Lemma session_scalars_last_witness :
  skipn 58 (fst (extract_features Examples.no_parse (VDict Sample.scalars_only)))
  = [Float.of_Z 5000; fin (8 # 10); Float.of_Z 2].
Proof.
  destruct (session_scalars_last Examples.no_parse Sample.scalars_only _ eq_refl)
    as (xs & Hxs & Hlast & _).
  vm_compute in Hxs. injection Hxs as <-. exact Hlast.
Defined.

(* ================================================================== *)
(** ** Extraction of a well-formed sample *)









Example extract_features_sample_data (pf : string -> option float) :
  Sample.consistent Sample.sample_data = true
  /\ length (Sample.features Sample.sample_data) = 57%nat
  /\ firstn 18 (Sample.features Sample.sample_data)
     = map Float.of_Z [200; 0; 200; 200; 200; 200; 300; 0; 300; 300;
                       500; 0; 500; 500]%Z
       ++ [Np.mean [fsqrt (Float.of_Z 5000)]; Float.zero;
           fsqrt (Float.of_Z 5000); fsqrt (Float.of_Z 5000)].
Proof. repeat split. Qed.

(* ================================================================== *)
(** ** Validation results *)

(** Errors and validity go together. *)
Lemma add_error_coherent (msg : string) (v : validation_results) :
  (is_valid (add_error msg v) = true <-> errors (add_error msg v) = []).
Proof.
  unfold add_error. cbn [is_valid errors]. split; [ discriminate | ].
  intros H. apply app_eq_nil in H. destruct H as [_ H]. discriminate.
Qed.

Lemma check_required_coherent (data : pyval) (fields : list string) :
  forall v v' : validation_results,
    (is_valid v = true <-> errors v = []) ->
    for_each fields
      (fun field v =>
         present <- py_in field data ;;
         if present then Ok v
         else Ok (add_error ("Missing required field: " ++ field)%string v))
      v = Ok v' ->
    (is_valid v' = true <-> errors v' = []) /\ warnings v' = warnings v.
Proof.
  induction fields as [| f fields IH]; intros v v' Hv H.
  - cbn [for_each] in H. ok_inv H. split; [ exact Hv | reflexivity ].
  - cbn [for_each] in H. bind_inv H as v1 Hv1. bind_inv Hv1 as present Hin.
    destruct present; ok_inv Hv1.
    + exact (IH _ _ Hv H).
    + destruct (IH _ _ (add_error_coherent _ v) H) as [Hc Hw].
      split; [ exact Hc | exact Hw ].
Qed.

Lemma check_field_coherent (data : pyval) (field : string)
  (warning : option (nat * string)) (v v' : validation_results) :
  (is_valid v = true <-> errors v = []) ->
  check_field data field warning v = Ok v' ->
  (is_valid v' = true <-> errors v' = []).
Proof.
  intros Hv H. unfold check_field in H.
  bind_inv H as present Hin. destruct present; [ | ok_inv H; exact Hv ].
  bind_inv H as x Hx. destruct (negb (is_list x)).
  - ok_inv H. apply add_error_coherent.
  - destruct warning as [[few msg] |]; [ | ok_inv H; exact Hv ].
    bind_inv H as n Hn. destruct (n <? few)%nat; ok_inv H; exact Hv.
Qed.

Lemma quality_factor_values (data : pyval) (field : string) (full half : nat)
  (x : float) :
  quality_factor data field full half = Ok x ->
  x = Float.one \/ x = fin (5 # 10) \/ x = Float.zero.
Proof.
  unfold quality_factor. intros H.
  bind_inv H as a Ha. destruct a; [ ok_inv H; tauto | ].
  bind_inv H as b Hb. destruct b; ok_inv H; tauto.
Qed.

(** X9. Every validation result the endpoint returns is coherent: is_valid
    is true exactly when the error list is empty, and data_quality_score is
    a finite number between 0 and 1. *)
Theorem validation_result_coherent (data : pyval) (v : validation_results)
  (log : list log_record) :
  validate_data data = (Success v, log) ->
  (is_valid v = true <-> errors v = [])
  /\ (exists q : Q, data_quality_score v = Fin q /\ 0 <= q /\ q <= 1)
  /\ log = [].
Proof.
  unfold validate_data, validate_data_try. intros H.
  destruct (negb (py_truth data)); [ discriminate | ].
  match type of H with
  | match ?c with _ => _ end = _ => destruct c as [resp | e] eqn:Htry
  end; [ | discriminate ].
  injection H as -> <-.
  bind_inv Htry as v0 H0. bind_inv Htry as v1 H1. bind_inv Htry as v2 H2.
  bind_inv Htry as v3 H3. bind_inv Htry as k Hk. bind_inv Htry as s Hs.
  bind_inv Htry as t Ht. injection Htry as <-.
  split; [ | split; [ | reflexivity ] ].
  - unfold set_score. cbn [is_valid errors].
    unfold check_required in H0.
    assert (Hinit : is_valid {| is_valid := true; errors := []; warnings := [];
                                data_quality_score := Float.zero |} = true
                    <-> errors {| is_valid := true; errors := []; warnings := [];
                                  data_quality_score := Float.zero |} = [])
      by (split; reflexivity).
    destruct (check_required_coherent data required_fields _ v0 Hinit H0)
      as [Hc0 _].
    pose proof (check_field_coherent _ _ _ _ _ Hc0 H1) as Hc1.
    pose proof (check_field_coherent _ _ _ _ _ Hc1 H2) as Hc2.
    exact (check_field_coherent _ _ _ _ _ Hc2 H3).
  - unfold set_score. cbn [data_quality_score].
    destruct (quality_factor_values _ _ _ _ _ Hk) as [-> | [-> | ->]];
      destruct (quality_factor_values _ _ _ _ _ Hs) as [-> | [-> | ->]];
      destruct (quality_factor_values _ _ _ _ _ Ht) as [-> | [-> | ->]];
      eexists; (split; [ reflexivity | split; discriminate ]).
Qed.

Lemma validation_result_coherent_witness :
  exists v,
    validate_data (VDict RiskSpec.unrelated_payload) = (Success v, [])
    /\ (is_valid v = true <-> errors v = []).
Proof.
  eexists. split; [ reflexivity | ].
  exact (proj1 (validation_result_coherent
                  (VDict RiskSpec.unrelated_payload) _ _ eq_refl)).
Defined.

Lemma lookup_some_truth (kv : list (string * pyval)) (name : string) (x : pyval) :
  lookup name kv = Some x -> py_truth (VDict kv) = true.
Proof. destruct kv; [ discriminate | reflexivity ]. Qed.

(** X10. Validation looks at the three fields, never at their elements: a
    payload whose keyEvents, touchEvents and sensorData are lists is valid
    with no error, whatever the lists hold, and its warnings depend on the
    lengths alone (fewer than 2 key events, fewer than 5 sensor samples). *)
Theorem validate_lists_valid (kv : list (string * pyval))
  (ke te sd : list pyval) :
  lookup "keyEvents" kv = Some (VList ke) ->
  lookup "touchEvents" kv = Some (VList te) ->
  lookup "sensorData" kv = Some (VList sd) ->
  exists v,
    validate_data (VDict kv) = (Success v, [])
    /\ is_valid v = true
    /\ errors v = []
    /\ warnings v
       = (if (length ke <? 2)%nat then ["Very few key events detected"] else [])
         ++ (if (length sd <? 5)%nat then ["Limited sensor data available"]
             else []).
Proof.
  intros Hk Ht Hs.
  unfold validate_data, validate_data_try.
  rewrite (lookup_some_truth _ _ _ Hk). cbn [negb].
  unfold check_required, required_fields, check_field, quality_factor, has_at_least.
  cbn [for_each py_in py_getitem bind].
  rewrite Hk, Ht, Hs. cbn [bind is_list negb py_len].
  destruct (length ke <? 2)%nat; destruct (length sd <? 5)%nat; cbn [bind];
    destruct (5 <=? length ke)%nat; cbn [bind];
    try destruct (2 <=? length ke)%nat; cbn [bind];
    destruct (10 <=? length sd)%nat; cbn [bind];
    try destruct (5 <=? length sd)%nat; cbn [bind];
    destruct (3 <=? length te)%nat; cbn [bind];
    try destruct (1 <=? length te)%nat; cbn [bind];
    eexists; repeat split.
Qed.

Lemma validate_lists_valid_witness :
  exists v,
    validate_data (VDict ValidationSpec.odd_lists) = (Success v, [])
    /\ is_valid v = true
    /\ warnings v = ["Very few key events detected"; "Limited sensor data available"].
Proof.
  destruct (validate_lists_valid ValidationSpec.odd_lists
              [VNone] [] [VStr "x"; Examples.int 3] eq_refl eq_refl eq_refl)
    as (v & Hv & Hvalid & _ & Hw).
  exists v. split; [ exact Hv | split; [ exact Hvalid | exact Hw ] ].
Defined.

Lemma check_required_dict (kv : list (string * pyval)) (fields : list string) :
  forall v, exists v',
    for_each fields
      (fun field v =>
         present <- py_in field (VDict kv) ;;
         if present then Ok v
         else Ok (add_error ("Missing required field: " ++ field)%string v))
      v = Ok v'.
Proof.
  induction fields as [| f fields IH]; intros v; cbn [for_each py_in bind].
  - eauto.
  - destruct (lookup f kv); cbn [bind]; apply IH.
Qed.

Lemma check_field_dict (kv : list (string * pyval)) (field : string)
  (warning : option (nat * string)) (v : validation_results) :
  exists v', check_field (VDict kv) field warning v = Ok v'.
Proof.
  unfold check_field. cbn [py_in py_getitem bind].
  destruct (lookup field kv) as [x |]; cbn [bind]; [ | eauto ].
  destruct x; cbn [is_list negb]; eauto.
  destruct warning as [[few msg] |]; cbn [py_len bind]; [ | eauto ].
  destruct (length l <? few)%nat; eauto.
Qed.

Lemma quality_factor_dict (kv : list (string * pyval)) (field : string)
  (full half : nat) :
  (exists x, quality_factor (VDict kv) field full half = Ok x
             /\ forall y, lookup field kv = Some y -> ValidationSpec.unsized y = false)
  \/ (quality_factor (VDict kv) field full half = Raise TypeError).
Proof.
  unfold quality_factor, has_at_least. cbn [py_in py_getitem bind].
  destruct (lookup field kv) as [x |]; cbn [bind].
  - destruct x; cbn [py_len bind]; try (right; reflexivity); left.
    + destruct (full <=? String.length s)%nat; [ | destruct (half <=? _)%nat ];
        eexists; (split; [ reflexivity | intros y Hy; injection Hy as <-; reflexivity ]).
    + destruct (full <=? length l)%nat; [ | destruct (half <=? _)%nat ];
        eexists; (split; [ reflexivity | intros y Hy; injection Hy as <-; reflexivity ]).
    + destruct (full <=? length kv0)%nat; [ | destruct (half <=? _)%nat ];
        eexists; (split; [ reflexivity | intros y Hy; injection Hy as <-; reflexivity ]).
  - left. eexists. split; [ reflexivity | discriminate ].
Qed.

(** X11. A required field that holds null, a boolean or a number does not
    produce a validation result: the type check records its error, but the
    quality score then takes [len] of the value, and the endpoint answers
    with the 500 error of that TypeError. *)
Theorem validate_unsized_field (kv : list (string * pyval)) (field : string)
  (x : pyval) :
  In field required_fields ->
  lookup field kv = Some x ->
  ValidationSpec.unsized x = true ->
  validate_data (VDict kv)
  = (Failure 500 (OfException TypeError),
     [LogError "Error validating data" TypeError]).
Proof.
  intros Hfield Hx Hun.
  assert (Htry : validate_data_try (VDict kv) = Raise TypeError).
  { unfold validate_data_try.
    rewrite (lookup_some_truth _ _ _ Hx). cbn [negb].
    unfold check_required.
    destruct (check_required_dict kv required_fields
                {| is_valid := true; errors := []; warnings := [];
                   data_quality_score := Float.zero |}) as (v0 & ->).
    cbn [bind].
    destruct (check_field_dict kv "keyEvents"
                (Some (2%nat, "Very few key events detected")) v0) as (v1 & ->).
    cbn [bind].
    destruct (check_field_dict kv "touchEvents" None v1) as (v2 & ->).
    cbn [bind].
    destruct (check_field_dict kv "sensorData"
                (Some (5%nat, "Limited sensor data available")) v2) as (v3 & ->).
    cbn [bind].
    assert (Hbad : forall y, lookup field kv = Some y ->
                             ValidationSpec.unsized y = false -> False).
    { intros y Hy Hf. rewrite Hx in Hy. injection Hy as <-.
      rewrite Hun in Hf. discriminate. }
    destruct (quality_factor_dict kv "keyEvents" 5 2)
      as [(k & Hk & Hsk) | ->]; [ | reflexivity ].
    rewrite Hk. cbn [bind].
    destruct (quality_factor_dict kv "sensorData" 10 5)
      as [(s & Hs & Hss) | ->]; [ | reflexivity ].
    rewrite Hs. cbn [bind].
    destruct (quality_factor_dict kv "touchEvents" 3 1)
      as [(t & Ht & Hst) | ->]; [ | reflexivity ].
    exfalso. simpl in Hfield.
    destruct Hfield as [<- | [<- | [<- | []]]].
    - exact (Hbad x Hx (Hsk x Hx)).
    - exact (Hbad x Hx (Hst x Hx)).
    - exact (Hbad x Hx (Hss x Hx)). }
  unfold validate_data. rewrite Htry. reflexivity.
Qed.

Lemma validate_unsized_field_witness :
  validate_data (VDict ValidationSpec.number_for_list)
  = (Failure 500 (OfException TypeError),
     [LogError "Error validating data" TypeError]).
Proof.
  apply (validate_unsized_field ValidationSpec.number_for_list
           "sensorData" (Examples.int 7)).
  - simpl. tauto.
  - reflexivity.
  - reflexivity.
Defined.

(* ================================================================== *)
(** ** What the three risk rules can produce *)

(** X12. No rule ever sets session_consistency_low, so a successful risk
    assessment scores 0, 1/4, 1/2 or 3/4 and never 1.  Its level is "High"
    exactly when all three computed flags are set, "Low" exactly when none
    is, and "Medium" otherwise. *)
Theorem risk_levels_by_flags (pf : string -> option float) (data : pyval)
  (r : risk_data) (log : list log_record) :
  risk_assessment pf data = (Success r, log) ->
  session_consistency_low (indicators r) = false
  /\ In (risk_score r) [Float.zero; fin (1 # 4); fin (1 # 2); fin (3 # 4)]
  /\ risk_score r <> Float.one
  /\ (risk_level r = "High"
      <-> typing_speed_anomaly (indicators r) = true
          /\ sensor_variance_high (indicators r) = true
          /\ touch_pattern_irregular (indicators r) = true)
  /\ (risk_level r = "Low"
      <-> typing_speed_anomaly (indicators r) = false
          /\ sensor_variance_high (indicators r) = false
          /\ touch_pattern_irregular (indicators r) = false).
Proof.
  intros H.
  destruct (risk_assessment_success _ _ _ _ H)
    as (typing & sensor & touch & features & ->).
  cbn [risk_score risk_level indicators session_consistency_low
       typing_speed_anomaly sensor_variance_high touch_pattern_irregular].
  split; [ reflexivity | ].
  destruct typing, sensor, touch; vm_compute;
    (split; [ tauto | ]); (split; [ discriminate | ]);
    split; split; try tauto; try discriminate;
    intros (H1 & H2 & H3); discriminate.
Qed.

Lemma risk_levels_by_flags_witness :
  exists r log,
    risk_assessment Examples.no_parse (Samples.touch_request Samples.long_swipe)
    = (Success r, log)
    /\ risk_score r <> Float.one
    /\ session_consistency_low (indicators r) = false.
Proof.
  eexists _, _. split; [ reflexivity | ].
  destruct (risk_levels_by_flags Examples.no_parse
              (Samples.touch_request Samples.long_swipe) _ _ eq_refl)
    as (Hs & _ & Hne & _).
  split; [ exact Hne | exact Hs ].
Defined.

(** X13. A category that is absent from the payload, or holds fewer than
    two entries, leaves its flag false in every successful risk assessment. *)
Theorem absent_category_flag_false (pf : string -> option float)
  (data : pyval) (r : risk_data) (log : list log_record) :
  risk_assessment pf data = (Success r, log) ->
  exists bd,
    py_getitem data "behavioral_data" = Ok bd
    /\ (has_more_than bd "keyEvents" 1 = Ok false ->
        typing_speed_anomaly (indicators r) = false)
    /\ (has_more_than bd "sensorData" 1 = Ok false ->
        sensor_variance_high (indicators r) = false)
    /\ (has_more_than bd "touchEvents" 1 = Ok false ->
        touch_pattern_irregular (indicators r) = false).
Proof.
  intros H.
  destruct (risk_assessment_inv _ _ _ _ H)
    as (bd & typing & sensor & touch & Hbd & Hty & Hse & Hto & _ & _ & ->).
  exists bd. split; [ exact Hbd | ].
  cbn [typing_speed_anomaly sensor_variance_high touch_pattern_irregular].
  repeat split; intros Hshort.
  - unfold typing_speed_check in Hty. rewrite Hshort in Hty.
    cbn [bind] in Hty. injection Hty as <-. reflexivity.
  - unfold sensor_variance_check in Hse. rewrite Hshort in Hse.
    cbn [bind] in Hse. injection Hse as <-. reflexivity.
  - unfold touch_pattern_check in Hto. rewrite Hshort in Hto.
    cbn [bind] in Hto. injection Hto as <-. reflexivity.
Qed.

Lemma absent_category_flag_false_witness :
  exists r log,
    risk_assessment Examples.no_parse (Samples.touch_request Samples.long_swipe)
    = (Success r, log)
    /\ typing_speed_anomaly (indicators r) = false
    /\ sensor_variance_high (indicators r) = false.
Proof.
  eexists _, _. split; [ reflexivity | ].
  destruct (absent_category_flag_false Examples.no_parse
              (Samples.touch_request Samples.long_swipe) _ _ eq_refl)
    as (bd & Hbd & Hk & Hs & _).
  vm_compute in Hbd. injection Hbd as <-.
  split; [ apply Hk | apply Hs ]; reflexivity.
Defined.

(* ================================================================== *)
(** ** The feature endpoint *)

Lemma extract_features_lengths (pf : string -> option float) (bd : pyval) :
  In (length (fst (extract_features pf bd))) [57; 61; 73]%nat.
Proof.
  unfold extract_features.
  destruct (extract_features_try pf bd) as [v | e] eqn:H; cbn [fst].
  - destruct (extract_features_try_length _ _ _ H) as (b & k & _ & _ & _ & ->).
    destruct b; simpl; tauto.
  - simpl. tauto.
Qed.

Lemma default_names_length (n : nat) : length (Service.default_names n) = n.
Proof. unfold Service.default_names. rewrite length_map. apply length_seq. Qed.

(** X14. A successful answer of the feature endpoint reports as
    feature_count the length of the vector it returns, which is 57, 61 or 73.
    With no stored feature names (None or an empty list) the names are
    feature_0 ... feature_{count-1}; stored names are returned as they are,
    whatever the length of the vector. *)
Theorem extract_endpoint_counts
  (scaler_t pca_t model_t forest_t : Type) (pf : string -> option float)
  (ml_service : Service.service scaler_t pca_t model_t forest_t)
  (data : pyval) (d : Endpoints.extraction) (log : list log_record) :
  Endpoints.extract_features pf ml_service data = (Success d, log) ->
  Endpoints.feature_count d = length (Endpoints.features d)
  /\ In (Endpoints.feature_count d) [57; 61; 73]%nat
  /\ (Service.feature_names ml_service = None
      \/ Service.feature_names ml_service = Some [] ->
      Endpoints.feature_names d
      = Service.default_names (Endpoints.feature_count d)
      /\ length (Endpoints.feature_names d) = Endpoints.feature_count d)
  /\ (forall n rest,
        Service.feature_names ml_service = Some (n :: rest) ->
        Endpoints.feature_names d = n :: rest).
Proof.
  unfold Endpoints.extract_features. intros H.
  destruct (Endpoints.missing data ["behavioral_data"]) as [[|] | e];
    try discriminate.
  destruct (py_getitem data "behavioral_data") as [bd | e]; try discriminate.
  pose proof (extract_features_lengths pf bd) as Hlen.
  destruct (extract_features pf bd) as [v log'] eqn:Hex. cbn [fst] in Hlen.
  injection H as <- <-.
  cbn [Endpoints.feature_count Endpoints.features Endpoints.feature_names].
  split; [ reflexivity | ]. split; [ exact Hlen | ].
  split.
  - intros [-> | ->]; cbn [Endpoints.names_or];
      (split; [ reflexivity | apply default_names_length ]).
  - intros n rest ->. reflexivity.
Qed.

Lemma extract_endpoint_counts_witness :
  exists d log,
    Endpoints.extract_features Examples.no_parse Stub.fresh Stub.sample_request
    = (Success d, log)
    /\ Endpoints.feature_count d = 57%nat
    /\ length (Endpoints.feature_names d) = 57%nat.
Proof.
  eexists _, _. split; [ reflexivity | ].
  destruct (extract_endpoint_counts unit unit unit unit Examples.no_parse
              Stub.fresh Stub.sample_request _ _ eq_refl)
    as (Hcount & _ & Hnames & _).
  split; [ exact Hcount | ].
  exact (proj2 (Hnames (or_introl eq_refl))).
Defined.

(* ================================================================== *)
(** ** Training *)

Lemma np_array_ragged (rows : list (list float)) (a b : list float) :
  In a rows -> In b rows -> length a <> length b ->
  Service.np_array rows = Raise ValueError.
Proof.
  intros Ha Hb Hne. destruct rows as [| r rest]; [ contradiction | ].
  unfold Service.np_array.
  destruct (forallb (fun r' => (length r' =? length r)%nat) rest) eqn:Hall;
    [ | reflexivity ].
  exfalso. rewrite forallb_forall in Hall.
  assert (Hsame : forall x, In x (r :: rest) -> length x = length r).
  { intros x [<- | Hx]; [ reflexivity | ]. apply Nat.eqb_eq. apply Hall. exact Hx. }
  apply Hne. rewrite (Hsame a Ha), (Hsame b Hb). reflexivity.
Qed.

Lemma np_array_ok (rows m : list (list float)) :
  Service.np_array rows = Ok m ->
  m = rows
  /\ forall n, Service.shape1 m = Ok n -> forall r, In r rows -> length r = n.
Proof.
  unfold Service.np_array. destruct rows as [| r rest]; intros H.
  - ok_inv H. split; [ reflexivity | ]. intros n Hn. discriminate.
  - destruct (forallb (fun r' => (length r' =? length r)%nat) rest) eqn:Hall;
      [ | discriminate ].
    ok_inv H. split; [ reflexivity | ].
    intros n Hn. cbn [Service.shape1] in Hn. ok_inv Hn.
    rewrite forallb_forall in Hall.
    intros x [<- | Hx]; [ reflexivity | ]. apply Nat.eqb_eq. apply Hall. exact Hx.
Qed.

(** X15. Training data in which two samples give vectors of different
    lengths cannot be trained: [train_model] answers with the ValueError of
    the ragged array, never reaches the library calls, and leaves the service
    as it was. *)
Theorem train_model_ragged
  (scaler_t pca_t model_t forest_t labels_t report_t : Type)
  (pf : string -> option float)
  (label_array : pyval -> result labels_t)
  (learn : list (list float) -> labels_t -> result report_t)
  (s : Service.service scaler_t pca_t model_t forest_t)
  (training_data labels : pyval) (samples : list pyval) (a b : pyval) :
  py_iter training_data = Ok samples ->
  In a samples -> In b samples ->
  length (fst (extract_features pf a)) <> length (fst (extract_features pf b)) ->
  Service.train_model true pf label_array learn s training_data labels
  = (Service.Error (OfException ValueError), s,
     concat (map snd (map (extract_features pf) samples))
     ++ [LogError "Error training model" ValueError]).
Proof.
  intros Hiter Ha Hb Hne. unfold Service.train_model. cbn [negb].
  rewrite Hiter.
  rewrite (np_array_ragged _ (fst (extract_features pf a))
             (fst (extract_features pf b))); [ reflexivity | | | exact Hne ].
  - rewrite map_map. apply in_map_iff. exists a. split; [ reflexivity | exact Ha ].
  - rewrite map_map. apply in_map_iff. exists b. split; [ reflexivity | exact Hb ].
Qed.

Lemma train_model_ragged_witness :
  Service.train_model true Examples.no_parse Stub.label_array Stub.learn
    Stub.fresh Stub.mixed_training Stub.six_labels
  = (Service.Error (OfException ValueError), Stub.fresh,
     [LogError "Error training model" ValueError]).
Proof.
  apply (train_model_ragged unit unit unit unit unit unit Examples.no_parse
           Stub.label_array Stub.learn Stub.fresh Stub.mixed_training
           Stub.six_labels [KeySpec.scenario_payload; Examples.empty_payload]
           KeySpec.scenario_payload Examples.empty_payload).
  - reflexivity.
  - simpl. tauto.
  - simpl. tauto.
  - vm_compute. discriminate.
Defined.

(** X16. After a training that succeeded, every training sample gave a
    vector of one common length n, which is 57, 61 or 73, and the stored
    feature names are feature_0 ... feature_{n-1}; the library handles of the
    service are the ones it had. *)
Theorem train_model_names
  (scaler_t pca_t model_t forest_t labels_t report_t : Type)
  (available : bool) (pf : string -> option float)
  (label_array : pyval -> result labels_t)
  (learn : list (list float) -> labels_t -> result report_t)
  (s s' : Service.service scaler_t pca_t model_t forest_t)
  (training_data labels : pyval) (r : report_t) (log : list log_record) :
  Service.train_model available pf label_array learn s training_data labels
  = (Service.Results r, s', log) ->
  exists samples n,
    py_iter training_data = Ok samples
    /\ samples <> []
    /\ In n [57; 61; 73]%nat
    /\ (forall x, In x samples -> length (fst (extract_features pf x)) = n)
    /\ Service.feature_names s' = Some (Service.default_names n)
    /\ length (Service.default_names n) = n
    /\ Service.model s' = Service.model s
    /\ Service.scaler s' = Service.scaler s.
Proof.
  unfold Service.train_model. intros H.
  destruct (negb available); [ discriminate | ].
  destruct (py_iter training_data) as [samples | e]; [ | discriminate ].
  match type of H with
  | match ?c with _ => _ end = _ => destruct c as [[[m l] n] | e] eqn:Hprep
  end; [ | discriminate ].
  destruct (learn m l) as [r' | e]; [ | discriminate ].
  injection H as <- <- <-.
  bind_inv Hprep as m' Hm. bind_inv Hprep as l' Hl. bind_inv Hprep as n' Hn.
  injection Hprep as -> -> ->.
  destruct (np_array_ok _ _ Hm) as [-> Hrows].
  exists samples, n.
  assert (Hsame : forall x, In x samples ->
                            length (fst (extract_features pf x)) = n).
  { intros x Hx. apply (Hrows n Hn). rewrite map_map.
    apply in_map_iff. exists x. split; [ reflexivity | exact Hx ]. }
  assert (Hne : samples <> []).
  { intros ->. discriminate Hn. }
  split; [ reflexivity | ]. split; [ exact Hne | ].
  split.
  { destruct samples as [| x rest]; [ contradiction | ].
    rewrite <- (Hsame x (or_introl eq_refl)). apply extract_features_lengths. }
  split; [ exact Hsame | ].
  split; [ reflexivity | ]. split; [ apply default_names_length | ].
  split; reflexivity.
Qed.

Lemma train_model_names_witness :
  exists s',
    Service.train_model true Examples.no_parse Stub.label_array Stub.learn
      Stub.fresh Stub.six_samples Stub.six_labels
    = (Service.Results tt, s', [])
    /\ Service.feature_names s' = Some (Service.default_names 61).
Proof.
  eexists. split; [ reflexivity | ].
  destruct (train_model_names unit unit unit unit unit unit true
              Examples.no_parse Stub.label_array Stub.learn Stub.fresh _
              Stub.six_samples Stub.six_labels tt [] eq_refl)
    as (samples & n & Hiter & _ & _ & Hsame & Hnames & _).
  injection Hiter as <-.
  rewrite Hnames. rewrite <- (Hsame Examples.empty_payload (or_introl eq_refl)).
  reflexivity.
Defined.

(* ================================================================== *)
(** ** The training endpoint *)

(** X17. The training endpoint starts a training only for a request that
    holds training_data and labels of one common length, at least 6, and its
    successful answer is the result of that training.  A failure is answered
    with status 400 or 500, and a 400 answer leaves the service as it was and
    logs nothing. *)
Theorem train_endpoint_gate
  (scaler_t pca_t model_t forest_t labels_t report_t : Type)
  (available : bool) (pf : string -> option float)
  (label_array : pyval -> result labels_t)
  (learn : list (list float) -> labels_t -> result report_t)
  (s s' : Service.service scaler_t pca_t model_t forest_t)
  (data : pyval) (resp : response report_t) (log : list log_record) :
  Endpoints.train_model available pf label_array learn s data = (resp, s', log) ->
  (forall r, resp = Success r ->
     exists training_data labels n,
       py_getitem data "training_data" = Ok training_data
       /\ py_getitem data "labels" = Ok labels
       /\ py_len training_data = Ok n /\ py_len labels = Ok n
       /\ (6 <= n)%nat
       /\ Service.train_model available pf label_array learn s training_data labels
          = (Service.Results r, s', log))
  /\ (forall status e, resp = Failure status e -> status = 400%nat \/ status = 500%nat)
  /\ (forall e, resp = Failure 400 e -> s' = s /\ log = []).
Proof.
  unfold Endpoints.train_model. intros H.
  destruct (Endpoints.train_request data) as [[r0 | [td ls]] | e] eqn:Hreq.
  - (* answered by the checks *)
    injection H as <- <- <-.
    unfold Endpoints.train_request in Hreq.
    bind_inv Hreq as lacking Hl.
    assert (Hr0 : exists msg, r0 = Failure 400 (Message msg)).
    { destruct lacking; [ ok_inv Hreq; eauto | ].
      bind_inv Hreq as td Htd. bind_inv Hreq as ls Hls.
      bind_inv Hreq as n Hn. bind_inv Hreq as m Hm.
      destruct (negb (n =? m)%nat); [ ok_inv Hreq; eauto | ].
      destruct (n <? 6)%nat; [ ok_inv Hreq; eauto | discriminate ]. }
    destruct Hr0 as [msg ->].
    split; [ intros r Hr; discriminate | ].
    split; [ intros status e He; injection He as <- _; left; reflexivity | ].
    intros e _. split; reflexivity.
  - (* training was started *)
    unfold Endpoints.train_request in Hreq.
    bind_inv Hreq as lacking Hl.
    destruct lacking; [ discriminate | ].
    bind_inv Hreq as td' Htd. bind_inv Hreq as ls' Hls.
    bind_inv Hreq as n Hn. bind_inv Hreq as m Hm.
    destruct (n =? m)%nat eqn:Hnm; cbn [negb] in Hreq; [ | discriminate ].
    destruct (n <? 6)%nat eqn:H6; [ discriminate | ].
    injection Hreq as -> ->.
    apply Nat.eqb_eq in Hnm. subst m. apply Nat.ltb_ge in H6.
    destruct (Service.train_model available pf label_array learn s td ls)
      as [[[r | e] s1] log1] eqn:Htrain; injection H as <- <- <-.
    + split.
      { intros r' Hr'. injection Hr' as <-.
        exists td, ls, n. repeat (split; [ assumption | ]). exact Htrain. }
      split; intros; discriminate.
    + split; [ intros r Hr; discriminate | ].
      split; [ intros status e' He; injection He as <- _; right; reflexivity | ].
      intros e' He. discriminate He.
  - injection H as <- <- <-.
    split; [ intros r Hr; discriminate | ].
    split; [ intros status e' He; injection He as <- _; right; reflexivity | ].
    intros e' He. discriminate He.
Qed.

Lemma train_endpoint_gate_witness :
  (exists s' n,
     Endpoints.train_model true Examples.no_parse Stub.label_array Stub.learn
       Stub.fresh Stub.train_request = (Success tt, s', [])
     /\ py_len Stub.six_samples = Ok n /\ (6 <= n)%nat)
  /\ exists e,
       Endpoints.train_model true Examples.no_parse Stub.label_array Stub.learn
         Stub.fresh Stub.short_request = (Failure 400 e, Stub.fresh, []).
Proof.
  split.
  - eexists.
    destruct (train_endpoint_gate unit unit unit unit unit unit true
                Examples.no_parse Stub.label_array Stub.learn Stub.fresh _
                Stub.train_request _ _ eq_refl)
      as (Hok & _ & _).
    destruct (Hok tt eq_refl) as (td & ls & n & Htd & _ & Hn & _ & H6 & _).
    injection Htd as <-.
    exists n. split; [ reflexivity | ]. split; [ exact Hn | exact H6 ].
  - eexists.
    destruct (train_endpoint_gate unit unit unit unit unit unit true
                Examples.no_parse Stub.label_array Stub.learn Stub.fresh _
                Stub.short_request _ _ eq_refl)
      as (_ & _ & Hsame).
    destruct (Hsame _ eq_refl) as [Hs Hlog].
    reflexivity.
Defined.

(* ================================================================== *)
(** ** Prediction *)

Lemma flt_fin (a b : Q) : flt (Fin a) (Fin b) = true <-> a < b.
Proof.
  unfold flt. rewrite Qlt_alt. destruct (a ?= b)%Q; split; congruence.
Qed.

(** A confidence above 0.4 is a probability below 0.3 or above 0.7. *)
Lemma confident_flagged (p : float) :
  fgt (fmul (Service.fabs (fsub p c05)) (Float.of_Z 2)) c04 = true ->
  flt p c03 || fgt p c07 = true.
Proof.
  destruct p as [q | | |]; try reflexivity; try discriminate.
  unfold fgt, c03, c04, c05, c07, fsub, fmul, Service.fabs, Float.of_Z, fin.
  intros H. apply flt_fin in H. rewrite !Qred_correct in H.
  apply orb_true_iff.
  destruct (Qlt_le_dec q (3 # 10)) as [Hlow | Hlow].
  - left. apply flt_fin. rewrite Qred_correct. exact Hlow.
  - right. apply flt_fin. rewrite Qred_correct.
    apply Qnot_le_lt. intros Hhigh. apply (Qlt_not_le _ _ H).
    setoid_replace (4 # 10) with ((2 # 10) * inject_Z 2) by reflexivity.
    apply Qmult_le_compat_r; [ | discriminate ].
    apply Qabs.Qabs_Qle_condition. split.
    + setoid_replace (- (2 # 10)) with ((3 # 10) - (5 # 10)) by reflexivity.
      apply Qplus_le_compat; [ exact Hlow | apply Qle_refl ].
    + setoid_replace (2 # 10) with ((7 # 10) - (5 # 10)) by reflexivity.
      apply Qplus_le_compat; [ exact Hhigh | apply Qle_refl ].
Qed.

Lemma flagged_not_low (features : list float) (p a : float) :
  flt p c03 || fgt p c07 = true ->
  _get_risk_level (_calculate_risk_score features p a) <> "Low".
Proof.
  intros H. unfold _calculate_risk_score. rewrite H.
  destruct (flt a (fopp c05)); destruct (fgt (Np.var features) (Float.of_Z 10));
    vm_compute; discriminate.
Qed.

(** The confidence of a probability in [0, 1] is in [0, 1]. *)
Lemma confidence_range (p : Q) :
  0 <= p -> p <= 1 ->
  exists c : Q,
    fmul (Service.fabs (fsub (Fin p) c05)) (Float.of_Z 2) = Fin c
    /\ 0 <= c /\ c <= 1.
Proof.
  intros H0 H1. eexists. split; [ reflexivity | ].
  rewrite !Qred_correct. split.
  - apply Qmult_le_0_compat; [ apply Qabs.Qabs_nonneg | discriminate ].
  - setoid_replace 1 with ((5 # 10) * inject_Z 2) by reflexivity.
    apply Qmult_le_compat_r; [ | discriminate ].
    apply Qabs.Qabs_Qle_condition. split.
    + setoid_replace (- (5 # 10)) with (0 - (5 # 10)) by reflexivity.
      apply Qplus_le_compat; [ exact H0 | apply Qle_refl ].
    + setoid_replace (5 # 10) with (1 - (5 # 10)) by reflexivity.
      apply Qplus_le_compat; [ exact H1 | apply Qle_refl ].
Qed.

Lemma call_ok {H A : Type} (h : option H) (f : H -> result A) (a : A) :
  Service.call h f = Ok a -> exists x, h = Some x /\ f x = Ok a.
Proof. destruct h as [x |]; [ eauto | discriminate ]. Qed.

(** X18. A prediction that succeeds was made with the libraries available
    and all four components loaded; it logs what feature extraction logged
    (so a payload whose extraction failed is predicted from the 73 zeros).
    The class is 1 exactly when the probability exceeds 0.5, the level is the
    level of the returned score, a confidence above 0.4 -- in either
    direction -- never comes with the level Low, and for a probability in
    [0, 1] the confidence is in [0, 1]. *)
Theorem predict_consistent
  (scaler_t pca_t model_t forest_t : Type)
  (available : bool) (pf : string -> option float)
  (scale : scaler_t -> list float -> result (list float))
  (reduce : pca_t -> list float -> result (list float))
  (classify : model_t -> list float -> result float)
  (decision_function : forest_t -> list float -> result float)
  (forest_predict : forest_t -> list float -> result Z)
  (s : Service.service scaler_t pca_t model_t forest_t)
  (behavioral_data : pyval) (r : Service.prediction) (log : list log_record) :
  Service.predict available pf scale reduce classify decision_function
    forest_predict s behavioral_data = (Service.Results r, log) ->
  (available = true
   /\ Service.scaler s <> None /\ Service.pca s <> None
   /\ Service.model s <> None /\ Service.isolation_forest s <> None)
  /\ log = snd (extract_features pf behavioral_data)
  /\ (Service.p_prediction r = 1%Z
      /\ fgt (Service.prediction_probability r) c05 = true
      \/ Service.p_prediction r = 0%Z
         /\ fgt (Service.prediction_probability r) c05 = false)
  /\ Service.p_risk_level r = _get_risk_level (Service.p_risk_score r)
  /\ (fgt (Service.confidence r) c04 = true -> Service.p_risk_level r <> "Low")
  /\ (forall p : Q,
        Service.prediction_probability r = Fin p -> 0 <= p -> p <= 1 ->
        exists c : Q, Service.confidence r = Fin c /\ 0 <= c /\ c <= 1).
Proof.
  unfold Service.predict. intros H.
  destruct available; cbn [negb orb] in H; [ | discriminate ].
  destruct (Service.model s) as [m |] eqn:Hmodel; [ | discriminate ].
  destruct (extract_features pf behavioral_data) as [features log0] eqn:Hex.
  destruct (Service.predict_try scale reduce classify decision_function
              forest_predict s features) as [r0 | e] eqn:Htry;
    [ | discriminate ].
  injection H as <- <-.
  unfold Service.predict_try in Htry.
  bind_inv Htry as scaled Hsc. bind_inv Htry as reduced Hpca.
  bind_inv Htry as prob Hprob. bind_inv Htry as score Hscore.
  bind_inv Htry as label Hlabel. ok_inv Htry.
  destruct (call_ok _ _ _ Hsc) as (h1 & E1 & _).
  destruct (call_ok _ _ _ Hpca) as (h2 & E2 & _).
  destruct (call_ok _ _ _ Hscore) as (h4 & E4 & _).
  cbn [Service.p_prediction Service.prediction_probability Service.confidence
       Service.p_risk_level Service.p_risk_score].
  split.
  { split; [ reflexivity | ].
    rewrite E1, E2, E4. repeat split; discriminate. }
  split; [ reflexivity | ].
  split.
  { change (match prob with
            | Fin b => match (1 # 2 ?= b)%Q with Lt => true | _ => false end
            | PInf => true
            | _ => false
            end) with (fgt prob c05).
    destruct (fgt prob c05); [ left | right ]; split; reflexivity. }
  split; [ reflexivity | ].
  split.
  { intros Hconf. apply flagged_not_low. apply confident_flagged. exact Hconf. }
  intros p -> H0 H1. apply confidence_range; assumption.
Qed.

Lemma predict_consistent_witness :
  exists r log,
    Service.predict true Examples.no_parse Stub.scale Stub.reduce Stub.classify
      Stub.decision_function Stub.forest_predict Stub.fresh Examples.sample_data
    = (Service.Results r, log)
    /\ Service.p_prediction r = 1%Z
    /\ Service.confidence r = fin (8 # 10)
    /\ Service.p_risk_level r <> "Low".
Proof.
  eexists _, _. split; [ reflexivity | ].
  destruct (predict_consistent unit unit unit unit true Examples.no_parse
              Stub.scale Stub.reduce Stub.classify Stub.decision_function
              Stub.forest_predict Stub.fresh Examples.sample_data _ _ eq_refl)
    as (_ & _ & _ & _ & Hlevel & _).
  split; [ reflexivity | ]. split; [ reflexivity | ].
  apply Hlevel. reflexivity.
Defined.

(* ================================================================== *)
(** ** Resetting the service *)

(** X19. After a reset no prediction is made: [predict] answers "Model
    not available" and logs nothing whatever the data, the prediction
    endpoint answers every request with status 400 or 500, the model
    information reports nothing loaded and no feature names, and the feature
    endpoint is back to the default names. *)
Theorem reset_forgets
  (scaler_t pca_t model_t forest_t : Type)
  (available : bool) (pf : string -> option float)
  (scale : scaler_t -> list float -> result (list float))
  (reduce : pca_t -> list float -> result (list float))
  (classify : model_t -> list float -> result float)
  (decision_function : forest_t -> list float -> result float)
  (forest_predict : forest_t -> list float -> result Z)
  (s : Service.service scaler_t pca_t model_t forest_t) (data : pyval) :
  Service.predict available pf scale reduce classify decision_function
    forest_predict (Endpoints.reset_model s) data
  = (Service.Error (Message "Model not available"), [])
  /\ (exists status e,
        fst (Endpoints.predict available pf scale reduce classify
               decision_function forest_predict (Endpoints.reset_model s) data)
        = Failure status e
        /\ In status [400; 500]%nat)
  /\ Service.get_model_info true (Endpoints.reset_model s)
     = Service.Results
         {| Service.model_loaded := false; Service.scaler_loaded := false;
            Service.pca_loaded := false;
            Service.isolation_forest_loaded := false;
            Service.info_feature_names := None |}
  /\ Endpoints.feature_names
       (match fst (Endpoints.extract_features pf (Endpoints.reset_model s) data) with
        | Success d => d
        | Failure _ _ =>
            {| Endpoints.features := []; Endpoints.feature_count := 0;
               Endpoints.feature_names := [] |}
        end)
     = Service.default_names
         (match fst (Endpoints.extract_features pf (Endpoints.reset_model s) data) with
          | Success d => Endpoints.feature_count d
          | Failure _ _ => 0%nat
          end).
Proof.
  assert (Hp : forall bd,
             Service.predict available pf scale reduce classify
               decision_function forest_predict (Endpoints.reset_model s) bd
             = (Service.Error (Message "Model not available"), [])).
  { intros bd. unfold Service.predict, Endpoints.reset_model, Service.reset_model.
    cbn [Service.model]. rewrite orb_true_r. reflexivity. }
  split; [ apply Hp | ].
  split.
  { unfold Endpoints.predict.
    destruct (Endpoints.missing data ["behavioral_data"]) as [[|] | e].
    - exists 400%nat, (Message "Missing required field: behavioral_data").
      split; [ reflexivity | simpl; tauto ].
    - destruct (py_getitem data "behavioral_data") as [bd | e].
      + rewrite Hp. exists 500%nat, (Message "Model not available").
        split; [ reflexivity | simpl; tauto ].
      + exists 500%nat, (OfException e). split; [ reflexivity | simpl; tauto ].
    - exists 500%nat, (OfException e). split; [ reflexivity | simpl; tauto ]. }
  split; [ reflexivity | ].
  unfold Endpoints.extract_features.
  destruct (Endpoints.missing data ["behavioral_data"]) as [[|] | e];
    try reflexivity.
  destruct (py_getitem data "behavioral_data") as [bd | e]; try reflexivity.
  destruct (extract_features pf bd) as [v log]. reflexivity.
Qed.

(* ================================================================== *)
(** ** The sensor flag of the risk endpoint *)










